(** * Sheet-to-dashboard pipeline: [scripts/download_sheet_and_build.py]

    A shallow embedding of the three data-transforming functions of the
    script, [fetch_sheet_values] (from the point where the grid [values]
    has been received), [compute_numeric_fields] with its local helper
    [to_float], and [build_dashboard_json], together with the Python
    built-ins they call: [str], [str.replace], [str.strip], [float],
    [round], [dict], [zip], [dict.get], item assignment and [list.append].

    Conventions.
    - A Python [str] is a [string]; each character stands for the code
      point with the same number (U+0000 to U+00FF).
    - A Python [float] is an IEEE 754 binary64 number, taken from the
      standard library's [SpecFloat] with [prec = 53] and [emax = 1024].
    - A Python [dict] with [str] keys whose order is never observed by the
      properties below (a row of the sheet) is a [gmap string value]; the
      dict [by_line], whose insertion order becomes the order of the output,
      is an association list in insertion order.
    - Exceptions are explicit: a computation that may raise returns an
      [outcome]. *)

From Stdlib Require Import ZArith Ascii String List.
From Stdlib Require Import Floats.SpecFloat.
From stdpp Require Import base option list strings gmap.

Local Open Scope Z_scope.

(** ** Exceptions *)

Inductive exn : Type :=
  | ValueError
  | KeyError.

Inductive outcome (A : Type) : Type :=
  | Ret (a : A)
  | Raise (e : exn).

Arguments Ret {A} a.
Arguments Raise {A} e.

#[global] Instance outcome_ret : MRet outcome := fun A a => Ret a.

#[global] Instance outcome_bind : MBind outcome := fun A B k c =>
  match c with
  | Ret a => k a
  | Raise e => Raise e
  end.

(** [try: body except Exception: handler]; both exceptions of [exn] derive
    from [Exception]. *)
Definition try_except {A : Type} (body : outcome A) (handler : exn -> outcome A)
  : outcome A :=
  match body with
  | Ret a => Ret a
  | Raise e => handler e
  end.

(** ** Characters and text *)

Module Text.

Definition code (c : ascii) : Z := Z.of_N (N_of_ascii c).

Definition is_digit (c : ascii) : bool := (48 <=? code c) && (code c <=? 57).

Definition digit_value (c : ascii) : Z := code c - 48.

(** [Py_ISSPACE]: the six ASCII white-space characters. *)
Definition is_ascii_space (c : ascii) : bool :=
  ((9 <=? code c) && (code c <=? 13)) || (code c =? 32).

(** [str.isspace] on one character, for code points below 256: the ASCII
    white space, the separators U+001C to U+001F, NEL (U+0085) and the
    no-break space (U+00A0). *)
Definition is_unicode_space (c : ascii) : bool :=
  is_ascii_space c
  || ((28 <=? code c) && (code c <=? 31))
  || (code c =? 133) || (code c =? 160).

(** [Py_TOLOWER] *)
Definition to_lower (c : ascii) : ascii :=
  if (65 <=? code c) && (code c <=? 90)
  then ascii_of_N (Z.to_N (code c + 32)) else c.

Definition chars (s : string) : list ascii := list_ascii_of_string s.
Definition text (l : list ascii) : string := string_of_list_ascii l.

Fixpoint drop_while {A : Type} (p : A -> bool) (l : list A) : list A :=
  match l with
  | [] => []
  | x :: t => if p x then drop_while p t else l
  end.

Fixpoint take_while {A : Type} (p : A -> bool) (l : list A) : list A :=
  match l with
  | [] => []
  | x :: t => if p x then x :: take_while p t else []
  end.

Definition strip_with (p : ascii -> bool) (l : list ascii) : list ascii :=
  rev (drop_while p (rev (drop_while p l))).

(** [s.replace(",", "")]: every comma is removed. *)
Definition remove_commas (s : string) : string :=
  text (List.filter (fun c => negb (code c =? 44)) (chars s)).

(** [s.strip()]: leading and trailing white space is removed. *)
Definition strip (s : string) : string :=
  text (strip_with is_unicode_space (chars s)).

(** Value of a run of decimal digits, most significant first. *)
Definition digits_value (ds : list ascii) : Z :=
  fold_left (fun acc c => 10 * acc + digit_value c) ds 0.

End Text.

(** ** Floating-point numbers: [float], [round] and [repr] *)

Module PyFloat.
Import Text.

Abbreviation float := spec_float.

Definition prec : Z := 53.
Definition emax : Z := 1024.

Definition zero : float := S754_zero false.
Definition add : float -> float -> float := SFadd prec emax.
Definition sub : float -> float -> float := SFsub prec emax.
Definition mul : float -> float -> float := SFmul prec emax.
Definition div : float -> float -> float := SFdiv prec emax.
Definition ltb : float -> float -> bool := SFltb.

#[global] Instance float_eq_dec : EqDecision float.
Proof. solve_decision. Defined.

Fixpoint count_digits (fuel : nat) (n : Z) : Z :=
  match fuel with
  | O => 0
  | S fuel' => if n <=? 0 then 0 else 1 + count_digits fuel' (n / 10)
  end.

(** Number of decimal digits of [n > 0]; a number has no more decimal
    digits than binary ones. *)
Definition decimal_digits (n : Z) : Z :=
  count_digits (S (Z.to_nat (Z.log2 n))) n.

(** The binary64 number nearest to [d * 10 ^ e10] ([d >= 0]), ties to even,
    with sign [s]: the conversion that [float] and [round] share
    ([_Py_dg_strtod], correctly rounded).  Beyond 10^310 the result is an
    infinity and below 10^-330 a zero; in between the quotient or product
    is rounded once by [SpecFloat]. *)
Definition decimal_to_float (s : bool) (d : Z) (e10 : Z) : float :=
  match d with
  | Zpos p =>
      let nd := decimal_digits d in
      if 310 <? nd + e10 then S754_infinity s
      else if nd + e10 <? -330 then S754_zero s
      else if 0 <=? e10
      then binary_normalize prec emax (cond_Zopp s (d * 10 ^ e10)) 0 s
      else SFdiv prec emax (S754_finite s p 0)
                 (S754_finite false (Z.to_pos (10 ^ (- e10))) 0)
  | _ => S754_zero s
  end.

(** *** [float(s)] for a [str] *)

Definition MAX_DIGITS : Z := 1000000000.
Definition MAX_ABS_EXP : Z := 1100000000.

Definition is_char (a c : ascii) : bool := Ascii.eqb a c.

Definition parse_sign (l : list ascii) : bool * list ascii :=
  match l with
  | c :: t =>
      if is_char "-" c then (true, t)
      else if is_char "+" c then (false, t)
      else (false, l)
  | [] => (false, [])
  end.

(** Optional exponent part.  An [e] that no digit follows is not part of
    the number and is left unread. *)
Definition parse_exponent (l : list ascii) : Z * list ascii :=
  match l with
  | c :: t =>
      if is_char "e" c || is_char "E" c then
        let '(esign, t1) := parse_sign t in
        let ds := take_while is_digit t1 in
        match ds with
        | [] => (0, l)
        | _ =>
            let sig := drop_while (is_char "0") ds in
            let abs_exp :=
              if 9 <? Z.of_nat (length sig) then MAX_ABS_EXP
              else digits_value sig in
            (cond_Zopp esign abs_exp, drop_while is_digit t1)
        end
      else (0, l)
  | [] => (0, [])
  end.

(** [_Py_dg_strtod]: sign, digits with at most one point, exponent.
    [None] is its parse error (no digit at all, or more than [MAX_DIGITS]
    of them); otherwise the value and the unread rest. *)
Definition strtod (l : list ascii) : option (float * list ascii) :=
  let '(sign, l1) := parse_sign l in
  let ip := take_while is_digit l1 in
  let l2 := drop_while is_digit l1 in
  let '(fp, l3) :=
    match l2 with
    | c :: t =>
        if is_char "." c then (take_while is_digit t, drop_while is_digit t)
        else ([], l2)
    | [] => ([], l2)
    end in
  match ip ++ fp with
  | [] => None
  | _ =>
      let sig := drop_while (is_char "0") (ip ++ fp) in
      if (MAX_DIGITS <? Z.of_nat (length sig))
         || (MAX_DIGITS <? Z.of_nat (length fp))
      then None
      else
        let '(e, l4) := parse_exponent l3 in
        Some (decimal_to_float sign (digits_value sig)
                (e - Z.of_nat (length fp)), l4)
  end.

(** [case_insensitive_match]: [t] is lower case. *)
Fixpoint case_insensitive_match (l t : list ascii) : bool :=
  match t, l with
  | [], _ => true
  | a :: t', c :: l' => is_char a (to_lower c) && case_insensitive_match l' t'
  | _ :: _, [] => false
  end.

(** [_Py_parse_inf_or_nan] *)
Definition parse_inf_or_nan (l : list ascii) : option (float * list ascii) :=
  let '(negate, l1) := parse_sign l in
  if case_insensitive_match l1 (chars "inf") then
    let l2 := drop 3 l1 in
    Some (S754_infinity negate,
          if case_insensitive_match l2 (chars "inity") then drop 5 l2 else l2)
  else if case_insensitive_match l1 (chars "nan") then
    Some (S754_nan, drop 3 l1)
  else None.

(** [_PyOS_ascii_strtod] *)
Definition ascii_strtod (l : list ascii) : option (float * list ascii) :=
  match strtod l with
  | Some r => Some r
  | None => parse_inf_or_nan l
  end.

(** [float_from_string_inner]: white space around the number is skipped,
    and the number has to be the whole of what is left. *)
Definition float_from_string_inner (l : list ascii) : outcome float :=
  match drop_while is_ascii_space l with
  | [] => Raise ValueError
  | l1 =>
      match ascii_strtod (rev (drop_while is_ascii_space (rev l1))) with
      | Some (x, []) => Ret x
      | _ => Raise ValueError
      end
  end.

(** [_PyUnicode_TransformDecimalAndSpaceToASCII]: an ASCII text is kept;
    in another one white space becomes a blank and the first other
    character from U+007F on becomes a question mark that ends the text
    (no decimal digit lies between U+007F and U+00FF). *)
Fixpoint transform_chars (l : list ascii) : list ascii :=
  match l with
  | [] => []
  | c :: t =>
      if code c <? 127 then c :: transform_chars t
      else if is_unicode_space c then " "%char :: transform_chars t
      else ["?"%char]
  end.

Definition transform_decimal_and_space (l : list ascii) : list ascii :=
  if forallb (fun c => code c <? 128) l then l else transform_chars l.

(** [_Py_string_to_number_with_underscores]: an underscore is allowed
    between two digits only, and is dropped. *)
Fixpoint without_underscores (prev : ascii) (l : list ascii)
  : option (list ascii) :=
  match l with
  | [] => if is_char "_" prev then None else Some []
  | c :: t =>
      if is_char "_" c then
        if is_digit prev then without_underscores c t else None
      else if is_char "_" prev && negb (is_digit c) then None
      else cons c <$> without_underscores c t
  end.

(** [float(s)]: [PyFloat_FromString] on a [str]. *)
Definition float_of_str (s : string) : outcome float :=
  let l := transform_decimal_and_space (chars s) in
  if existsb (is_char "_") l then
    match without_underscores Ascii.zero l with
    | Some l' => float_from_string_inner l'
    | None => Raise ValueError
    end
  else float_from_string_inner l.

(** *** [round(x, ndigits)] for [ndigits >= 0] *)

(** The integer nearest to [num / den] ([den > 0]), ties to even. *)
Definition div_half_even (num den : Z) : Z :=
  let q := num / den in
  match 2 * (num mod den) ?= den with
  | Lt => q
  | Gt => q + 1
  | Eq => if Z.even q then q else q + 1
  end.

Definition NDIGITS_MAX : Z := 323.

(** [float.__round__] with a second argument that is not negative: zeros,
    infinities and NaN round to themselves; a finite [x] has its exact
    value rounded to [ndigits] decimal places, ties to even
    ([_Py_dg_dtoa], mode 3), and the decimal obtained is read back as a
    [float].  Reading back cannot overflow when [ndigits >= 0]: a binary64
    number of magnitude 2^53 or more is an integer and rounds to itself,
    so the [OverflowError] of [double_round] is kept for negative
    [ndigits], which this program never passes. *)
Definition round (x : float) (ndigits : nat) : float :=
  match x with
  | S754_finite s m e =>
      let n := Z.of_nat ndigits in
      if NDIGITS_MAX <? n then x
      else
        let scaled :=
          if 0 <=? e then Zpos m * 2 ^ e * 10 ^ n
          else div_half_even (Zpos m * 10 ^ n) (2 ^ (- e)) in
        decimal_to_float s scaled (- n)
  | _ => x
  end.

(** *** [repr(x)], which is also [str(x)] *)

Fixpoint digits_of (fuel : nat) (n : Z) (acc : list ascii) : list ascii :=
  match fuel with
  | O => acc
  | S fuel' =>
      if n <=? 0 then acc
      else digits_of fuel' (n / 10)
             (ascii_of_N (Z.to_N (48 + n mod 10)) :: acc)
  end.

(** Decimal digits of [n >= 0]; no digit for 0. *)
Definition decimal (n : Z) : list ascii :=
  digits_of (S (Z.to_nat (Z.log2 n))) n [].

Fixpoint strip_zeros (fuel : nat) (d e10 : Z) : Z * Z :=
  match fuel with
  | O => (d, e10)
  | S fuel' =>
      if (0 <? d) && (d mod 10 =? 0) then strip_zeros fuel' (d / 10) (e10 + 1)
      else (d, e10)
  end.

Fixpoint scale_up (fuel : nat) (num den k : Z) : Z :=
  match fuel with
  | O => k
  | S fuel' => if den <=? num then k else scale_up fuel' (10 * num) den (k - 1)
  end.

(** The position of the decimal point of [num / den > 0]: the [k] with
    [10 ^ (k - 1) <= num / den < 10 ^ k]. *)
Definition decimal_point (num den : Z) : Z :=
  if den <=? num then decimal_digits (num / den)
  else scale_up 400 (10 * num) den 0.

(** With [nd] digits: the two [nd]-digit decimals around [num / den]; the
    one that reads back as [x] is taken, the nearer when both do. *)
Definition candidate (x : float) (s : bool) (num den decpt : Z) (nd : Z)
  : option (Z * Z) :=
  let e10 := decpt - nd in
  let n := if 0 <=? e10 then num else num * 10 ^ (- e10) in
  let d := if 0 <=? e10 then den * 10 ^ e10 else den in
  let lo := n / d in
  let hi := lo + 1 in
  let ok c := bool_decide (decimal_to_float s c e10 = x) in
  if ok lo && (negb (ok hi) || (2 * (n mod d) <=? d)) then Some (lo, e10)
  else if ok hi then Some (hi, e10)
  else None.

Fixpoint shortest (fuel : nat) (x : float) (s : bool) (num den decpt nd : Z)
  : Z * Z :=
  match fuel with
  | O => (div_half_even (num * 10 ^ Z.max 0 (nd - decpt))
                        (den * 10 ^ Z.max 0 (decpt - nd)), decpt - nd)
  | S fuel' =>
      match candidate x s num den decpt nd with
      | Some r => r
      | None => shortest fuel' x s num den decpt (nd + 1)
      end
  end.

(** [format_float_short] in repr mode: exponent form when the point lies
    more than 16 places right or 4 or more places left of the first digit,
    and a final [.0] for a whole number in positional form. *)
Definition format_repr (ds : list ascii) (decpt : Z) : list ascii :=
  if (decpt <=? -4) || (16 <? decpt) then
    let e := decpt - 1 in
    let es := decimal (Z.abs e) in
    firstn 1 ds
    ++ (match skipn 1 ds with [] => [] | t => "."%char :: t end)
    ++ ["e"%char; if e <? 0 then "-"%char else "+"%char]
    ++ (if Z.abs e <? 10 then ["0"%char] else []) ++ es
  else if decpt <=? 0 then
    chars "0." ++ repeat "0"%char (Z.to_nat (- decpt)) ++ ds
  else if Z.of_nat (length ds) <=? decpt then
    ds ++ repeat "0"%char (Z.to_nat (decpt - Z.of_nat (length ds))) ++ chars ".0"
  else
    firstn (Z.to_nat decpt) ds ++ "."%char :: skipn (Z.to_nat decpt) ds.

(** [float_repr]: the shortest decimal that reads back as [x]. *)
Definition repr (x : float) : string :=
  match x with
  | S754_nan => "nan"
  | S754_infinity s => if s then "-inf" else "inf"
  | S754_zero s => if s then "-0.0" else "0.0"
  | S754_finite s m e =>
      let num := if 0 <=? e then Zpos m * 2 ^ e else Zpos m in
      let den := if 0 <=? e then 1 else 2 ^ (- e) in
      let decpt := decimal_point num den in
      let '(d0, e0) := shortest 17 x s num den decpt 1 in
      let '(d, e10) := strip_zeros 20 d0 e0 in
      let ds := decimal d in
      text ((if s then ["-"%char] else [])
            ++ format_repr ds (Z.of_nat (length ds) + e10))
  end.

End PyFloat.

(** ** Values and rows *)

(** What a row can hold: the text of a cell, a number written by
    [compute_numeric_fields], and [None], which [dict.get] returns for a
    key that is absent. *)
Inductive value : Type :=
  | VNone
  | VStr (s : string)
  | VFloat (x : PyFloat.float).

(** Keys of [by_line] are compared by [==]; on text that is equality of
    strings.  Only text and the default are found under [line_id] (numbers
    are stored under the four derived names only), so equality of values is
    decided structurally. *)
#[global] Instance value_eq_dec : EqDecision value.
Proof. solve_decision. Defined.

(** [str(x)] *)
Definition str (x : value) : string :=
  match x with
  | VNone => "None"
  | VStr s => s
  | VFloat f => PyFloat.repr f
  end.

(** [d.get(k, default)]; [d.get(k)] has the default [None]. *)
Definition get (d : gmap string value) (k : string) (default : value) : value :=
  match d !! k with
  | Some v => v
  | None => default
  end.

(** [dict(pairs)]: pairs are stored from left to right, so that the last
    value given for a key is the one that stays. *)
Definition dict (pairs : list (string * value)) : gmap string value :=
  fold_left (fun d kv => <[kv.1 := kv.2]> d) pairs ∅.

(** ** [fetch_sheet_values], from the grid [values] on *)

(** The body of the loop: the record of one data row. *)
Definition fetch_row (header row : list string) : gmap string value :=
  (* pad row so len(row) == len(header); a list times a negative number
     is the empty list *)
  let row_padded :=
    row ++ replicate
             (Z.to_nat (Z.of_nat (length header) - Z.of_nat (length row)))
             ""%string in
  dict (zip header (VStr <$> row_padded)).

Definition fetch_sheet_values (values : list (list string))
  : list (gmap string value) :=
  match values with
  | [] => []
  | header :: data => fetch_row header <$> data
  end.

(** ** [compute_numeric_fields] *)

Definition to_float (x : value) : outcome PyFloat.float :=
  try_except
    (PyFloat.float_of_str (Text.strip (Text.remove_commas (str x))))
    (fun _ => Ret PyFloat.zero).

(** The body of the loop, for one row.  The six fields are read before the
    four derived ones are stored. *)
Definition compute_row (row : gmap string value) : outcome (gmap string value) :=
  m3 ← to_float (get row "material_moved_m3" VNone);
  g ← to_float (get row "gold_grams" VNone);
  gold_price ← to_float (get row "gold_price_usd_per_g" VNone);
  diesel_cost ← to_float (get row "diesel_cost_usd" VNone);
  labour_cost ← to_float (get row "labour_cost_usd" VNone);
  other_cost ← to_float (get row "other_cost_usd" VNone);
  let avg_grade :=
    if PyFloat.ltb PyFloat.zero m3 then PyFloat.div g m3 else PyFloat.zero in
  let revenue := PyFloat.mul g gold_price in
  let total_cost := PyFloat.add (PyFloat.add diesel_cost labour_cost) other_cost in
  let profit := PyFloat.sub revenue total_cost in
  let row := <["avg_grade_g_per_m3" := VFloat (PyFloat.round avg_grade 3)]> row in
  let row := <["revenue_usd" := VFloat (PyFloat.round revenue 2)]> row in
  let row := <["total_cost_usd" := VFloat (PyFloat.round total_cost 2)]> row in
  let row := <["profit_usd" := VFloat (PyFloat.round profit 2)]> row in
  mret row.

(** The rows are updated in place, one after the other, and returned. *)
Definition compute_numeric_fields (rows : list (gmap string value))
  : outcome (list (gmap string value)) :=
  mapM compute_row rows.

(** ** [build_dashboard_json] *)

Record group : Type := Group {
  line_id : value;
  line_name : value;
  location : value;
  records : list (gmap string value)
}.

Record dashboard : Type := Dashboard { lines : list group }.

(** The dict [by_line], as the list of its items in insertion order. *)
Module Dict.

Definition t : Type := list (value * group).

(** [k in d] *)
Definition contains (d : t) (k : value) : bool :=
  existsb (fun kv => bool_decide (kv.1 = k)) d.

(** [d[k]] *)
Fixpoint getitem (d : t) (k : value) : outcome group :=
  match d with
  | [] => Raise KeyError
  | (k', g) :: d' => if decide (k' = k) then Ret g else getitem d' k
  end.

(** [d[k] = g]: a key that is present keeps its place, a new key goes
    last. *)
Fixpoint setitem (d : t) (k : value) (g : group) : t :=
  match d with
  | [] => [(k, g)]
  | (k', g') :: d' =>
      if decide (k' = k) then (k', g) :: d' else (k', g') :: setitem d' k g
  end.

(** [list(d.values())] *)
Definition values (d : t) : list group := snd <$> d.

(** The dict with the keys [ks], in that order, and the group [f k] under
    the key [k]. *)
Definition tabulate (f : value -> group) (ks : list value) : t :=
  (λ k, (k, f k)) <$> ks.

End Dict.

(** [g["records"].append(r)]: the group is the object that [by_line] holds,
    so the caller stores the result back under the same key. *)
Definition append_record (g : group) (r : gmap string value) : group :=
  Group (line_id g) (line_name g) (location g) (records g ++ [r]).

(** The body of the loop, for one row [r]. *)
Definition group_row (by_line : Dict.t) (r : gmap string value) : outcome Dict.t :=
  let lid := get r "line_id" (VStr "UNKNOWN") in
  let by_line :=
    if negb (Dict.contains by_line lid) then
      Dict.setitem by_line lid
        (Group lid (get r "line_name" (VStr "")) (get r "location" (VStr "")) [])
    else by_line in
  g ← Dict.getitem by_line lid;
  mret (Dict.setitem by_line lid (append_record g r)).

Fixpoint group_rows (by_line : Dict.t) (rows : list (gmap string value))
  : outcome Dict.t :=
  match rows with
  | [] => mret by_line
  | r :: rows' => by_line' ← group_row by_line r; group_rows by_line' rows'
  end.

Definition build_dashboard_json (rows : list (gmap string value))
  : outcome dashboard :=
  by_line ← group_rows [] rows;
  mret (Dashboard (Dict.values by_line)).

(** The pipeline of [main] between the download and the file. *)
Definition pipeline (values : list (list string)) : outcome dashboard :=
  rows ← compute_numeric_fields (fetch_sheet_values values);
  build_dashboard_json rows.

(** ** Specification-level definitions *)

(** The six fields read by the enrichment and the four it writes. *)
Definition source_fields : list string :=
  ["material_moved_m3"; "gold_grams"; "gold_price_usd_per_g";
   "diesel_cost_usd"; "labour_cost_usd"; "other_cost_usd"]%string.

Definition derived_fields : list string :=
  ["avg_grade_g_per_m3"; "revenue_usd"; "total_cost_usd"; "profit_usd"]%string.

(** The four derived values as the specification words them, from the
    coerced quantities. *)
Definition spec_avg_grade (mass volume : PyFloat.float) : PyFloat.float :=
  PyFloat.round
    (if PyFloat.ltb PyFloat.zero volume then PyFloat.div mass volume
     else PyFloat.zero) 3.

Definition spec_revenue (mass unit_price : PyFloat.float) : PyFloat.float :=
  PyFloat.round (PyFloat.mul mass unit_price) 2.

Definition spec_total_cost (cost1 cost2 cost3 : PyFloat.float) : PyFloat.float :=
  PyFloat.round (PyFloat.add (PyFloat.add cost1 cost2) cost3) 2.

Definition spec_profit (mass unit_price cost1 cost2 cost3 : PyFloat.float)
  : PyFloat.float :=
  PyFloat.round
    (PyFloat.sub (PyFloat.mul mass unit_price)
                 (PyFloat.add (PyFloat.add cost1 cost2) cost3)) 2.

(** [row'] carries the four derived values of [row], and is [row]
    elsewhere. *)
Definition enriched (row row' : gmap string value) : Prop :=
  ∃ volume mass unit_price cost1 cost2 cost3,
    to_float (get row "material_moved_m3" VNone) = Ret volume
    ∧ to_float (get row "gold_grams" VNone) = Ret mass
    ∧ to_float (get row "gold_price_usd_per_g" VNone) = Ret unit_price
    ∧ to_float (get row "diesel_cost_usd" VNone) = Ret cost1
    ∧ to_float (get row "labour_cost_usd" VNone) = Ret cost2
    ∧ to_float (get row "other_cost_usd" VNone) = Ret cost3
    ∧ row' !! "avg_grade_g_per_m3"%string
      = Some (VFloat (spec_avg_grade mass volume))
    ∧ row' !! "revenue_usd"%string
      = Some (VFloat (spec_revenue mass unit_price))
    ∧ row' !! "total_cost_usd"%string
      = Some (VFloat (spec_total_cost cost1 cost2 cost3))
    ∧ row' !! "profit_usd"%string
      = Some (VFloat (spec_profit mass unit_price cost1 cost2 cost3))
    ∧ ∀ k, k ∉ derived_fields → row' !! k = row !! k.

(** What [to_float] makes of a text once commas and outer white space are
    gone: the number read, or 0.0 when [float] raises. *)
Definition number_of_text (s : string) : PyFloat.float :=
  match PyFloat.float_of_str (Text.strip (Text.remove_commas s)) with
  | Ret f => f
  | Raise _ => PyFloat.zero
  end.

(** The number [to_float] returns for a value, and the row that
    [compute_row] returns, as pure functions. *)
Definition to_number (x : value) : PyFloat.float := number_of_text (str x).

Definition enrich (row : gmap string value) : gmap string value :=
  let volume := to_number (get row "material_moved_m3" VNone) in
  let mass := to_number (get row "gold_grams" VNone) in
  let unit_price := to_number (get row "gold_price_usd_per_g" VNone) in
  let cost1 := to_number (get row "diesel_cost_usd" VNone) in
  let cost2 := to_number (get row "labour_cost_usd" VNone) in
  let cost3 := to_number (get row "other_cost_usd" VNone) in
  <["profit_usd" := VFloat (spec_profit mass unit_price cost1 cost2 cost3)]>
    (<["total_cost_usd" := VFloat (spec_total_cost cost1 cost2 cost3)]>
       (<["revenue_usd" := VFloat (spec_revenue mass unit_price)]>
          (<["avg_grade_g_per_m3" := VFloat (spec_avg_grade mass volume)]>
             row))).

(** A row padded on the right with empty cells up to the length of the
    header, as the specification words it. *)
Definition pad (header row : list string) : list string :=
  row ++ replicate (length header - length row)%nat ""%string.

(** The group key of a record. *)
Definition key_of (r : gmap string value) : value :=
  match r !! "line_id"%string with
  | Some v => v
  | None => VStr "UNKNOWN"
  end.

(** The keys of a list in the order of their first occurrence. *)
Fixpoint first_keys (ks : list value) : list value :=
  match ks with
  | [] => []
  | k :: ks' => k :: filter (λ k', k' ≠ k) (first_keys ks')
  end.

(** The group of key [k] as the specification describes it: the records
    of that key in input order, named after the first of them. *)
Definition group_of (rows : list (gmap string value)) (k : value) : group :=
  let rs := filter (λ r, key_of r = k) rows in
  Group k
    (match rs with r0 :: _ => get r0 "line_name" (VStr "") | [] => VStr "" end)
    (match rs with r0 :: _ => get r0 "location" (VStr "") | [] => VStr "" end)
    rs.

Definition groups_by_first_encounter (rows : list (gmap string value))
  : list group :=
  group_of rows <$> first_keys (key_of <$> rows).

(** The dict [by_line] once the loop has gone through [rows]. *)
Definition by_line_of (rows : list (gmap string value)) : Dict.t :=
  Dict.tabulate (group_of rows) (first_keys (key_of <$> rows)).

(** ** The script around the pipeline *)

(** [load_service_account_credentials], the whole of [fetch_sheet_values]
    and [main].  What they take from outside the repository, the parsers
    of the standard library, the Google client and the file system, is a
    parameter; what they do to the world is a list of events. *)
Module Script.

Inductive error : Type :=
  | RuntimeError (msg : string)
  | JSONDecodeError
  | OtherError (name : string)
  | CoreError (e : exn).

Inductive run (A : Type) : Type :=
  | Done (a : A)
  | Failed (e : error).

Arguments Done {A} a.
Arguments Failed {A} e.

#[global] Instance run_ret : MRet run := fun A a => Done a.

#[global] Instance run_bind : MBind run := fun A B k c =>
  match c with
  | Done a => k a
  | Failed e => Failed e
  end.

(** An exception of the pipeline goes through the script as it is. *)
Definition lift {A : Type} (c : outcome A) : run A :=
  match c with
  | Ret a => Done a
  | Raise e => Failed (CoreError e)
  end.

Record services : Type := Services {
  (** what [json.loads] and [ast.literal_eval] return *)
  info : Type;
  credentials : Type;
  json_loads : string → run info;
  literal_eval : string → run info;
  from_service_account_info : info → list string → run credentials;
  (** [build("sheets", "v4", credentials=creds)], then
      [spreadsheets().values().get(spreadsheetId=..., range=...).execute()],
      then the entry ["values"] of the response, if it has one *)
  values_get : credentials → string → string → run (option (list (list string)));
  (** [os.path.abspath(os.path.join(os.path.dirname(__file__), "..",
      "data.json"))], which asks for the current directory when the path
      of the script is relative *)
  output_path : run string;
  (** [open(path, "w", encoding="utf-8")], which empties the file *)
  open_for_writing : string → run unit;
  (** [json.dump(dashboard, f, ensure_ascii=False, indent=2)] *)
  json_dump : dashboard → run unit;
  (** the end of the [with] block: the file is flushed and closed *)
  close_file : string → run unit;
  (** [print(line)] *)
  print_line : string → run unit
}.

Definition SCOPES : list string :=
  ["https://www.googleapis.com/auth/spreadsheets.readonly"]%string.

(** [not x] for what [os.environ.get] returns: true for [None] and for the
    empty text. *)
Definition not_ (x : option string) : bool :=
  match x with
  | None => true
  | Some s => bool_decide (s = ""%string)
  end.

Definition load_service_account_credentials
    (sv : services) (environ : gmap string string) : run (credentials sv) :=
  let raw := environ !! "GOOGLE_SERVICE_ACCOUNT_JSON"%string in
  if not_ raw then
    Failed (RuntimeError "Missing env var GOOGLE_SERVICE_ACCOUNT_JSON")
  else
    data ← match json_loads sv (default ""%string raw) with
           | Failed JSONDecodeError => literal_eval sv (default ""%string raw)
           | loaded => loaded
           end;
    from_service_account_info sv data SCOPES.

(** The whole of [fetch_sheet_values(sheet_id, range_a1)]: the download,
    then the part from the grid on, which is [fetch_sheet_values] above.
    A response without ["values"] counts as the empty grid. *)
Definition fetch_sheet_values_from
    (sv : services) (environ : gmap string string) (sheet_id range_a1 : string)
  : run (list (gmap string value)) :=
  creds ← load_service_account_credentials sv environ;
  result ← values_get sv creds sheet_id range_a1;
  let values := default [] result in
  mret (fetch_sheet_values values).

(** [str(n)] for a length. *)
Definition str_of_nat (n : nat) : string :=
  match n with
  | O => "0"
  | _ => Text.text (PyFloat.decimal (Z.of_nat n))
  end.

(** What [main] does to the world: the file is opened, and so emptied;
    [json.dump] has returned; the file is closed without an error; a line
    is printed.  The file holds the whole dashboard once it is both dumped
    and closed. *)
Inductive event : Type :=
  | Opened (path : string)
  | Dumped (path : string) (d : dashboard)
  | Closed (path : string)
  | Printed (line : string).

(** All of [main] that comes before the file is opened. *)
Definition main_before_the_file
    (sv : services) (environ : gmap string string)
  : run (list (gmap string value) * dashboard) :=
  let sheet_id := environ !! "SHEET_ID"%string in
  if not_ sheet_id then Failed (RuntimeError "Missing env var SHEET_ID")
  else
    rows ← fetch_sheet_values_from sv environ (default ""%string sheet_id)
                                   "Lines!A1:Z999";
    rows ← lift (compute_numeric_fields rows);
    dashboard ← lift (build_dashboard_json rows);
    mret (rows, dashboard).

(** The line that [main] prints. *)
Definition report (rows : list (gmap string value)) (path : string) : string :=
  "Written " +:+ str_of_nat (length rows) +:+ " rows into " +:+ path.

(** [main]: the events in their order, and how the run ends.  The [with]
    block closes the file whether [json.dump] has raised or not, and an
    exception of the closing is the one that leaves the block. *)
Definition main (sv : services) (environ : gmap string string)
  : list event * run unit :=
  match main_before_the_file sv environ with
  | Failed e => ([], Failed e)
  | Done (rows, dashboard) =>
      match output_path sv with
      | Failed e => ([], Failed e)
      | Done path =>
          match open_for_writing sv path with
          | Failed e => ([], Failed e)
          | Done _ =>
              match json_dump sv dashboard with
              | Failed e =>
                  match close_file sv path with
                  | Failed e' => ([Opened path], Failed e')
                  | Done _ => ([Opened path; Closed path], Failed e)
                  end
              | Done _ =>
                  match close_file sv path with
                  | Failed e => ([Opened path; Dumped path dashboard], Failed e)
                  | Done _ =>
                      match print_line sv (report rows path) with
                      | Failed e =>
                          ([Opened path; Dumped path dashboard; Closed path],
                           Failed e)
                      | Done _ =>
                          ([Opened path; Dumped path dashboard; Closed path;
                            Printed (report rows path)],
                           Done ())
                      end
                  end
              end
          end
      end
  end.

End Script.

(** * Properties *)

(** ** The model on known values *)

(** 0.1 is read as its nearest binary64 number, 7205759403792794 * 2^-56;
    the largest finite number and the smallest positive one are read
    exactly, and what lies beyond them becomes an infinity or a zero. *)
Example float_of_str_values :
  PyFloat.float_of_str "0.1" = Ret (S754_finite false 7205759403792794 (-56))
  ∧ PyFloat.float_of_str "1.7976931348623157e308"
    = Ret (S754_finite false 9007199254740991 971)
  ∧ PyFloat.float_of_str "1.7976931348623159e308" = Ret (S754_infinity false)
  ∧ PyFloat.float_of_str "5e-324" = Ret (S754_finite false 1 (-1074))
  ∧ PyFloat.float_of_str "2.4e-324" = Ret (S754_zero false)
  ∧ PyFloat.float_of_str "-0" = Ret (S754_zero true)
  ∧ PyFloat.float_of_str "1_000.5" = PyFloat.float_of_str "1000.5"
  ∧ PyFloat.float_of_str "-Infinity" = Ret (S754_infinity true)
  ∧ PyFloat.float_of_str "NaN" = Ret S754_nan
  ∧ PyFloat.float_of_str "1e" = Raise ValueError
  ∧ PyFloat.float_of_str "1 2" = Raise ValueError
  ∧ PyFloat.float_of_str "1_" = Raise ValueError.
Proof. repeat apply conj; vm_compute; reflexivity. Qed.

(** [round] works on the exact binary value, ties to even: 2.675 is below
    the tie and gives 2.67, 0.125 is a tie and gives 0.12, 0.375 gives
    0.38, and -0.001 gives -0.0. *)
Example round_values :
  (x ← PyFloat.float_of_str "2.675"; mret (PyFloat.round x 2))
  = PyFloat.float_of_str "2.67"
  ∧ (x ← PyFloat.float_of_str "0.125"; mret (PyFloat.round x 2))
    = PyFloat.float_of_str "0.12"
  ∧ (x ← PyFloat.float_of_str "0.375"; mret (PyFloat.round x 2))
    = PyFloat.float_of_str "0.38"
  ∧ (x ← PyFloat.float_of_str "-0.001"; mret (PyFloat.round x 2))
    = Ret (S754_zero true)
  ∧ (x ← PyFloat.float_of_str "1e300"; mret (PyFloat.round x 3))
    = PyFloat.float_of_str "1e300".
Proof. repeat apply conj; vm_compute; reflexivity. Qed.

Example repr_values :
  (x ← PyFloat.float_of_str "0.1"; mret (PyFloat.repr x)) = Ret "0.1"%string
  ∧ (x ← PyFloat.float_of_str "300"; mret (PyFloat.repr x)) = Ret "300.0"%string
  ∧ (x ← PyFloat.float_of_str "10000000000000000"; mret (PyFloat.repr x))
    = Ret "1e+16"%string
  ∧ (x ← PyFloat.float_of_str "0.00001"; mret (PyFloat.repr x))
    = Ret "1e-05"%string
  ∧ (x ← PyFloat.float_of_str "0.1"; y ← PyFloat.float_of_str "0.2";
     mret (PyFloat.repr (PyFloat.add x y)))
    = Ret "0.30000000000000004"%string
  ∧ (x ← PyFloat.float_of_str "5.684341886080802e-14"; mret (PyFloat.repr x))
    = Ret "5.684341886080802e-14"%string.
Proof. repeat apply conj; vm_compute; reflexivity. Qed.

(** The first scenario of the specification: one data row under the nine
    known columns.  The groups are shown by their three fields and, for
    each record, the text of the four derived values. *)
Example scenario_one_row :
  (d ← pipeline
         [ ["line_id"; "line_name"; "location"; "material_moved_m3";
            "gold_grams"; "gold_price_usd_per_g"; "diesel_cost_usd";
            "labour_cost_usd"; "other_cost_usd"];
           ["L1"; "Line One"; "Pit A"; "100"; "5"; "60"; "50"; "30"; "20"]
         ]%string;
   mret ((λ g, (line_id g, line_name g, location g,
                (λ r : gmap string value,
                   (λ k, str <$> r !! k) <$> derived_fields)
                  <$> records g)) <$> lines d))
  = Ret [ (VStr "L1", VStr "Line One", VStr "Pit A",
           [ [Some "0.05"; Some "300.0"; Some "100.0"; Some "200.0"]%string ]) ].
Proof. vm_compute. reflexivity. Qed.

(** The other scenarios: a volume of ["0"] gives the grade 0.0; a grid
    without [line_id] is grouped under ["UNKNOWN"]; a grid of a header
    alone, and an empty grid, give no group. *)
Example scenario_zero_volume :
  (rows ← compute_numeric_fields
            (fetch_sheet_values
               [ ["material_moved_m3"; "gold_grams"]; ["0"; "5"] ]%string);
   mret ((λ r, r !! "avg_grade_g_per_m3"%string)
           <$> (rows : list (gmap string value))))
  = Ret [ Some (VFloat (S754_zero false)) ].
Proof. vm_compute. reflexivity. Qed.

Example scenario_no_line_id :
  (d ← pipeline [ ["gold_grams"]; ["5"] ]%string;
   mret ((λ g, (line_id g, length (records g))) <$> lines d))
  = Ret [ (VStr "UNKNOWN", 1%nat) ].
Proof. vm_compute. reflexivity. Qed.

(** Two records of one line around a record of another, the later record
    of the first line under another name: the groups come in the order
    L1, L2, and L1 keeps the name and the place of its first record. *)
Example scenario_first_record_names :
  (d ← build_dashboard_json
         (fetch_sheet_values
            [ ["line_id"; "line_name"; "location"];
              ["L1"; "Line One"; "Pit A"];
              ["L2"; "Line Two"; "Pit B"];
              ["L1"; "Renamed"; "Pit C"] ]%string);
   mret ((λ g, (line_id g, line_name g, location g,
                (λ r : gmap string value, r !! "line_name"%string)
                  <$> records g)) <$> lines d))
  = Ret [ (VStr "L1", VStr "Line One", VStr "Pit A",
           [Some (VStr "Line One"); Some (VStr "Renamed")]);
          (VStr "L2", VStr "Line Two", VStr "Pit B",
           [Some (VStr "Line Two")]) ].
Proof. vm_compute. reflexivity. Qed.

Example scenario_no_data_row :
  pipeline [ ["line_id"; "gold_grams"] ]%string = Ret (Dashboard [])
  ∧ pipeline [] = Ret (Dashboard []).
Proof. split; reflexivity. Qed.

(** ** Numeric coercion and enrichment *)

Section Enrichment.

Implicit Types (row : gmap string value) (x : value) (k : string).

Lemma to_float_ret x : to_float x = Ret (to_number x).
Proof.
  unfold to_float, to_number, number_of_text, try_except.
  by destruct (PyFloat.float_of_str _).
Qed.

Lemma compute_row_ret row : compute_row row = Ret (enrich row).
Proof. unfold compute_row. by rewrite !to_float_ret. Qed.

Lemma compute_numeric_fields_ret (rows : list (gmap string value)) :
  compute_numeric_fields rows = Ret (enrich <$> rows).
Proof.
  unfold compute_numeric_fields.
  induction rows as [|row rows IH]; [done|].
  cbn [mapM]. rewrite compute_row_ret. cbn. by rewrite IH.
Qed.

Lemma not_derived k :
  k ∉ derived_fields →
  k ≠ "avg_grade_g_per_m3"%string ∧ k ≠ "revenue_usd"%string
  ∧ k ≠ "total_cost_usd"%string ∧ k ≠ "profit_usd"%string.
Proof.
  unfold derived_fields. rewrite !not_elem_of_cons. tauto.
Qed.

Lemma source_not_derived k : k ∈ source_fields → k ∉ derived_fields.
Proof.
  unfold source_fields, derived_fields.
  rewrite !elem_of_cons, !elem_of_nil.
  intros [->|[->|[->|[->|[->|[->|[]]]]]]] Hd;
    repeat (destruct Hd as [Hd|Hd]; [discriminate Hd|]); exact Hd.
Qed.

Lemma enrich_lookup_other row k :
  k ∉ derived_fields → enrich row !! k = row !! k.
Proof.
  intros (H1 & H2 & H3 & H4)%not_derived. unfold enrich.
  by rewrite !lookup_insert_ne.
Qed.

Lemma enrich_get_source row k d :
  k ∈ source_fields → get (enrich row) k d = get row k d.
Proof.
  intros H%source_not_derived. unfold get. by rewrite enrich_lookup_other.
Qed.

Lemma enrich_enriched row : enriched row (enrich row).
Proof.
  unfold enriched.
  exists (to_number (get row "material_moved_m3" VNone)),
         (to_number (get row "gold_grams" VNone)),
         (to_number (get row "gold_price_usd_per_g" VNone)),
         (to_number (get row "diesel_cost_usd" VNone)),
         (to_number (get row "labour_cost_usd" VNone)),
         (to_number (get row "other_cost_usd" VNone)).
  rewrite !to_float_ret. unfold enrich.
  repeat split;
    try (rewrite ?lookup_insert_ne by done; apply lookup_insert_eq).
  intros k (H1 & H2 & H3 & H4)%not_derived. by rewrite !lookup_insert_ne.
Qed.

Lemma enrich_idempotent row : enrich (enrich row) = enrich row.
Proof.
  unfold enrich at 1.
  rewrite !enrich_get_source
    by (unfold source_fields; rewrite !elem_of_cons; auto 10).
  unfold enrich.
  rewrite (insert_id _ "avg_grade_g_per_m3"%string)
    by (rewrite ?lookup_insert_ne by done; apply lookup_insert_eq).
  rewrite (insert_id _ "revenue_usd"%string)
    by (rewrite ?lookup_insert_ne by done; apply lookup_insert_eq).
  rewrite (insert_id _ "total_cost_usd"%string)
    by (rewrite ?lookup_insert_ne by done; apply lookup_insert_eq).
  by rewrite insert_insert_eq.
Qed.

Lemma number_of_None : to_number VNone = PyFloat.zero.
Proof. vm_compute. reflexivity. Qed.

Lemma get_absent_or_unparseable row k s f :
  number_of_text s = PyFloat.zero →
  to_number (get (<[k := VStr s]> row) f VNone)
  = to_number (get (delete k row) f VNone).
Proof.
  intros Hs. unfold get. destruct (decide (k = f)) as [->|Hne].
  - rewrite lookup_insert_eq, lookup_delete_eq, number_of_None. exact Hs.
  - by rewrite lookup_insert_ne, lookup_delete_ne.
Qed.

Lemma enrich_absent_or_unparseable row k s :
  k ∉ derived_fields →
  number_of_text s = PyFloat.zero →
  enrich (<[k := VStr s]> row) = <[k := VStr s]> (enrich (delete k row)).
Proof.
  intros (H1 & H2 & H3 & H4)%not_derived Hs. unfold enrich.
  rewrite !(get_absent_or_unparseable row k s) by done.
  rewrite (insert_insert_ne _ k "profit_usd"%string) by done.
  rewrite (insert_insert_ne _ k "total_cost_usd"%string) by done.
  rewrite (insert_insert_ne _ k "revenue_usd"%string) by done.
  rewrite (insert_insert_ne _ k "avg_grade_g_per_m3"%string) by done.
  by rewrite insert_delete_eq.
Qed.

End Enrichment.

(** C2.  The numeric coercion is total and lenient: for every value, and so
    for every text, [to_float] returns a number and never raises; whenever
    [float] raises on the cleaned text the result is exactly 0.0, the
    number that the text ["0"] gives too.  The empty text and text that is
    no number are such failures, and ["1,234.5"] coerces to 1234.5, which
    is 5429388417957888 * 2^-42. *)
Theorem to_float_total_and_lenient :
  (∀ x : value,
     to_float x
     = Ret match PyFloat.float_of_str
                   (Text.strip (Text.remove_commas (str x))) with
           | Ret f => f
           | Raise _ => PyFloat.zero
           end)
  ∧ to_float (VStr "1,234.5") = Ret (S754_finite false 5429388417957888 (-42))
  ∧ 5429388417957888 * 10 = 12345 * 2 ^ 42
  ∧ PyFloat.float_of_str "" = Raise ValueError
  ∧ to_float (VStr "") = Ret PyFloat.zero
  ∧ PyFloat.float_of_str "n/a" = Raise ValueError
  ∧ to_float (VStr "n/a") = Ret PyFloat.zero
  ∧ PyFloat.float_of_str "1.2.3" = Raise ValueError
  ∧ to_float (VStr "1.2.3") = Ret PyFloat.zero
  ∧ to_float (VStr "0") = Ret PyFloat.zero.
Proof.
  split; [intros x; apply to_float_ret|].
  repeat apply conj; vm_compute; reflexivity.
Qed.

(** C1.  For every record, enrichment returns a record whose four derived
    fields are exactly: [avg_grade_g_per_m3], mass / volume if volume > 0
    and 0.0 otherwise, rounded to 3 decimal places; [revenue_usd],
    mass * unit_price rounded to 2 places; [total_cost_usd], the sum of the
    three cost components rounded to 2 places; [profit_usd],
    revenue - total_cost (both before rounding) rounded to 2 places; where
    the quantities are the numeric coercions of [material_moved_m3],
    [gold_grams], [gold_price_usd_per_g], [diesel_cost_usd],
    [labour_cost_usd] and [other_cost_usd]. *)
Theorem compute_numeric_fields_derived (rows : list (gmap string value)) :
  ∃ rows', compute_numeric_fields rows = Ret rows' ∧ Forall2 enriched rows rows'.
Proof.
  exists (enrich <$> rows). split; [apply compute_numeric_fields_ret|].
  induction rows as [|row rows IH]; constructor; auto using enrich_enriched.
Qed.

(** C8.  For every record and every source field, a field that is absent
    and a field that holds text [float] cannot read both coerce to 0.0 and
    contribute zero to the derived values: in both cases the enrichment
    returns the four derived values of the formulas, computed with 0.0 for
    that field, the same values that the text ["0"] in that field gives;
    the enriched records differ in nothing but the presence of the field
    itself. *)
Theorem absent_field_like_unparseable_field
    (row : gmap string value) (k s : string) (e : exn) :
  k ∈ source_fields →
  PyFloat.float_of_str (Text.strip (Text.remove_commas s)) = Raise e →
  to_float (get (delete k row) k VNone) = Ret PyFloat.zero
  ∧ to_float (get (<[k := VStr s]> row) k VNone) = Ret PyFloat.zero
  ∧ ∃ row',
      compute_row (delete k row) = Ret row'
      ∧ compute_row (<[k := VStr s]> row) = Ret (<[k := VStr s]> row')
      ∧ (∀ d, d ∈ derived_fields → (<[k := VStr s]> row') !! d = row' !! d)
      ∧ enriched (delete k row) row'
      ∧ enriched (<[k := VStr s]> row) (<[k := VStr s]> row')
      ∧ to_float (VStr "0") = Ret PyFloat.zero
      ∧ compute_row (<[k := VStr "0"]> row) = Ret (<[k := VStr "0"]> row').
Proof.
  intros Hk Hs.
  assert (number_of_text s = PyFloat.zero) as Hz
    by (unfold number_of_text; by rewrite Hs).
  assert (number_of_text "0" = PyFloat.zero) as Hz0
    by (vm_compute; reflexivity).
  pose proof (source_not_derived k Hk) as Hnd.
  rewrite !to_float_ret. unfold get.
  rewrite lookup_delete_eq, lookup_insert_eq, number_of_None.
  split; [done|]. split; [exact (f_equal Ret Hz)|].
  exists (enrich (delete k row)). rewrite !compute_row_ret.
  rewrite <- !enrich_absent_or_unparseable by done.
  split; [done|]. split; [done|]. split.
  { intros d Hd. rewrite enrich_absent_or_unparseable by done.
    apply lookup_insert_ne. intros ->. by apply Hnd. }
  split; [apply enrich_enriched|]. split; [apply enrich_enriched|].
  split; [exact (f_equal Ret Hz0)|done].
Qed.

Lemma absent_field_like_unparseable_field_witness :
  let row : gmap string value :=
    {[ "gold_grams"%string := VStr "5";
       "gold_price_usd_per_g"%string := VStr "60" ]} in
  let k := "gold_price_usd_per_g"%string in
  let s := "sixty"%string in
  k ∈ source_fields
  ∧ PyFloat.float_of_str (Text.strip (Text.remove_commas s)) = Raise ValueError
  ∧ to_float (get (delete k row) k VNone) = Ret PyFloat.zero
  ∧ to_float (get (<[k := VStr s]> row) k VNone) = Ret PyFloat.zero
  ∧ ∃ row',
      compute_row (delete k row) = Ret row'
      ∧ compute_row (<[k := VStr s]> row) = Ret (<[k := VStr s]> row')
      ∧ (∀ d, d ∈ derived_fields → (<[k := VStr s]> row') !! d = row' !! d)
      ∧ enriched (delete k row) row'
      ∧ enriched (<[k := VStr s]> row) (<[k := VStr s]> row')
      ∧ to_float (VStr "0") = Ret PyFloat.zero
      ∧ compute_row (<[k := VStr "0"]> row) = Ret (<[k := VStr "0"]> row').
Proof.
  intros row k s.
  assert (k ∈ source_fields) as Hk
    by (apply (bool_decide_unpack _); vm_compute; exact I).
  assert (PyFloat.float_of_str (Text.strip (Text.remove_commas s))
          = Raise ValueError) as Hs by (vm_compute; reflexivity).
  split; [exact Hk|]. split; [exact Hs|].
  exact (absent_field_like_unparseable_field row k s ValueError Hk Hs).
Defined.

(** C9.  Enrichment is idempotent: enriching the enriched records again
    returns them unchanged, so in particular the four derived values stay
    as they were; the source fields, from which they are recomputed, are
    those of the input. *)
Theorem compute_numeric_fields_idempotent (rows : list (gmap string value)) :
  ∃ rows',
    compute_numeric_fields rows = Ret rows'
    ∧ compute_numeric_fields rows' = Ret rows'
    ∧ Forall2 (λ row row', ∀ k, k ∈ source_fields → row' !! k = row !! k)
        rows rows'.
Proof.
  exists (enrich <$> rows). rewrite !compute_numeric_fields_ret.
  split; [done|]. split.
  - f_equal. rewrite <- list_fmap_compose. apply list_fmap_ext.
    intros _ row _. apply enrich_idempotent.
  - induction rows as [|row rows IH]; constructor; [|exact IH].
    intros k Hk. apply enrich_lookup_other, source_not_derived, Hk.
Qed.

(** ** The materializer *)

Section Materializer.

Local Open Scope nat_scope.
Implicit Types (header row : list string) (pairs : list (string * value)).

Lemma dict_snoc pairs k v : dict (pairs ++ [(k, v)]) = <[k := v]> (dict pairs).
Proof. unfold dict. by rewrite fold_left_app. Qed.

Lemma dict_dom pairs : dom (dict pairs) = list_to_set pairs.*1.
Proof.
  induction pairs as [|[k v] pairs IH] using rev_ind.
  - unfold dict; simpl. apply dom_empty_L.
  - rewrite dict_snoc, dom_insert_L, IH, fmap_app, list_to_set_app_L.
    simpl. rewrite (right_id_L ∅ (∪)). apply (comm_L (∪)).
Qed.

(** The value of a key is the one paired with its last occurrence. *)
Lemma dict_lookup_Some pairs k v :
  dict pairs !! k = Some v
  ↔ ∃ i, pairs !! i = Some (k, v)
         ∧ ∀ j v', i < j → pairs !! j ≠ Some (k, v').
Proof.
  revert v. induction pairs as [|[k0 v0] pairs IH] using rev_ind; intros v.
  - unfold dict; simpl. rewrite lookup_empty. split; [done|].
    intros (i & Hi & _). by rewrite lookup_nil in Hi.
  - rewrite dict_snoc. destruct (decide (k0 = k)) as [->|Hne].
    + rewrite lookup_insert_eq. split.
      * intros [= ->]. exists (length pairs). split.
        { by rewrite lookup_app_r, Nat.sub_diag by lia. }
        intros j v' Hj. rewrite lookup_ge_None_2; [done|].
        rewrite length_app; simpl; lia.
      * intros (i & Hi & Hlast).
        apply lookup_snoc_Some in Hi as [[Hlt Hi]|[-> [= ->]]]; [|done].
        exfalso. apply (Hlast (length pairs) v0 Hlt).
        by rewrite lookup_app_r, Nat.sub_diag by lia.
    + rewrite lookup_insert_ne by done. rewrite IH. split.
      * intros (i & Hi & Hlast). exists i.
        pose proof (lookup_lt_Some _ _ _ Hi) as Hlt.
        split; [by apply lookup_app_l_Some|].
        intros j v' Hj Hj'.
        apply lookup_snoc_Some in Hj' as [[_ Hj']|[_ [= ? ?]]]; [|done].
        by apply (Hlast j v').
      * intros (i & Hi & Hlast).
        apply lookup_snoc_Some in Hi as [[Hlt Hi]|[_ [= ? ?]]]; [|done].
        exists i. split; [done|]. intros j v' Hj Hj'.
        apply (Hlast j v' Hj). by apply lookup_app_l_Some.
Qed.

Lemma fetch_row_pad header row :
  fetch_row header row = dict (zip header (VStr <$> pad header row)).
Proof. unfold fetch_row, pad. do 5 f_equal. lia. Qed.

Lemma length_pad header row :
  length (pad header row) = length row `max` length header.
Proof. unfold pad. rewrite length_app, length_replicate. lia. Qed.

(** A cell of the padded row: the cell of the row, or the empty text
    from the end of the row on. *)
Lemma lookup_pad header row j :
  j < length header →
  pad header row !! j = Some (default ""%string (row !! j)).
Proof.
  intros Hj. unfold pad. destruct (decide (j < length row)) as [Hlt|Hge].
  - rewrite lookup_app_l by done.
    by destruct (lookup_lt_is_Some_2 row j Hlt) as [c ->].
  - rewrite lookup_app_r by lia.
    rewrite lookup_replicate_2 by lia.
    by rewrite (lookup_ge_None_2 row j) by lia.
Qed.

Lemma fetch_row_dom header row :
  dom (fetch_row header row) = list_to_set header.
Proof.
  rewrite fetch_row_pad, dict_dom, fst_zip; [done|].
  rewrite length_fmap, length_pad. lia.
Qed.

(** The record of a row: every name of the header is bound to the cell
    under the last column of that name, and to the empty text when the
    row does not reach that column. *)
Lemma fetch_row_lookup header row name v :
  fetch_row header row !! name = Some v
  ↔ ∃ j, header !! j = Some name
         ∧ v = VStr (default ""%string (row !! j))
         ∧ ∀ j', j < j' → header !! j' ≠ Some name.
Proof.
  rewrite fetch_row_pad, dict_lookup_Some. split.
  - intros (j & Hj & Hlast).
    apply lookup_zip_with_Some in Hj as (x & y & [= -> ->] & Hx & Hy).
    pose proof (lookup_lt_Some _ _ _ Hx) as Hlt.
    rewrite list_lookup_fmap, lookup_pad in Hy by done. injection Hy as <-.
    exists j. repeat split; [done|]. intros j' Hj' Hx'.
    pose proof (lookup_lt_Some _ _ _ Hx') as Hlt'.
    apply (Hlast j' (VStr (default ""%string (row !! j'))) Hj').
    apply lookup_zip_with_Some. eexists _, _. split; [done|]. split; [done|].
    by rewrite list_lookup_fmap, lookup_pad.
  - intros (j & Hj & -> & Hlast). exists j.
    pose proof (lookup_lt_Some _ _ _ Hj) as Hlt. split.
    + apply lookup_zip_with_Some. eexists _, _. split; [done|]. split; [done|].
      by rewrite list_lookup_fmap, lookup_pad.
    + intros j' v' Hj' Hz.
      apply lookup_zip_with_Some in Hz as (x & y & [= -> ->] & Hx & _).
      by apply (Hlast j').
Qed.

Lemma fetch_row_take header row :
  fetch_row header (take (length header) row) = fetch_row header row.
Proof.
  apply map_eq; intros name. apply option_eq; intros v.
  rewrite !fetch_row_lookup.
  split; intros (j & Hj & -> & Hlast); exists j;
    pose proof (lookup_lt_Some _ _ _ Hj) as Hlt;
    (split; [done|]); (split; [|done]); by rewrite lookup_take_lt.
Qed.

End Materializer.

(** C5.  For every grid with a data row that has fewer cells than the
    header, the record of that row is built by padding the row on the
    right with empty texts up to the length of the header and pairing
    positionally; it has a value for every header field, the fields from
    the end of the row on are the empty text, and every record of the grid
    has exactly the names of the header as its keys. *)
Theorem short_row_is_padded
    (header : list string) (data : list (list string)) (i : nat)
    (row : list string) :
  data !! i = Some row →
  (length row < length header)%nat →
  ∃ r,
    fetch_sheet_values (header :: data) !! i = Some r
    ∧ r = dict (zip header (VStr <$> pad header row))
    ∧ length (pad header row) = length header
    ∧ (∀ name, name ∈ header → is_Some (r !! name))
    ∧ (∀ j name, (length row ≤ j)%nat → header !! j = Some name →
                 r !! name = Some (VStr ""))
    ∧ ∀ r', r' ∈ fetch_sheet_values (header :: data) →
            dom r' = list_to_set header.
Proof.
  intros Hi Hshort. exists (fetch_row header row).
  split; [|split; [|split; [|split; [|split]]]].
  - simpl. by rewrite list_lookup_fmap, Hi.
  - apply fetch_row_pad.
  - rewrite length_pad. lia.
  - intros name Hname. apply elem_of_dom.
    rewrite fetch_row_dom. by apply elem_of_list_to_set.
  - intros j name Hj Hname.
    assert (is_Some (fetch_row header row !! name)) as [v Hv].
    { apply elem_of_dom. rewrite fetch_row_dom.
      apply elem_of_list_to_set. by eapply list_elem_of_lookup_2. }
    rewrite Hv. apply fetch_row_lookup in Hv as (j' & Hj' & -> & Hlast).
    destruct (decide (j' < j)%nat) as [Hlt|Hge];
      [by destruct (Hlast j Hlt)|].
    by rewrite (lookup_ge_None_2 row j') by lia.
  - simpl. intros r' (row' & -> & _)%list_elem_of_fmap.
    apply fetch_row_dom.
Qed.

Lemma short_row_is_padded_witness :
  let header := ["line_id"; "gold_grams"; "gold_price_usd_per_g"]%string in
  let data := [["L1"; "5"; "60"]; ["L2"]]%string in
  data !! 1%nat = Some ["L2"%string]
  ∧ (length ["L2"%string] < length header)%nat
  ∧ ∃ r,
      fetch_sheet_values (header :: data) !! 1%nat = Some r
      ∧ r = dict (zip header (VStr <$> pad header ["L2"%string]))
      ∧ length (pad header ["L2"%string]) = length header
      ∧ (∀ name, name ∈ header → is_Some (r !! name))
      ∧ (∀ j name, (length ["L2"%string] ≤ j)%nat → header !! j = Some name →
                   r !! name = Some (VStr ""))
      ∧ ∀ r', r' ∈ fetch_sheet_values (header :: data) →
              dom r' = list_to_set header.
Proof.
  intros header data.
  assert (data !! 1%nat = Some ["L2"%string]) as Hi by reflexivity.
  assert (length ["L2"%string] < length header)%nat as Hlen by (simpl; lia).
  split; [exact Hi|]. split; [exact Hlen|].
  exact (short_row_is_padded header data 1 ["L2"%string] Hi Hlen).
Defined.

(** C6.  For every grid with a data row that has more cells than the
    header, the record of that row is the positional pairing of the
    header with the first cells of the row, as many as the header has
    names; whatever cells follow them, the record is the same, and each of
    its values is one of those first cells. *)
Theorem long_row_is_truncated
    (header : list string) (data : list (list string)) (i : nat)
    (row : list string) :
  data !! i = Some row →
  (length header < length row)%nat →
  ∃ r,
    fetch_sheet_values (header :: data) !! i = Some r
    ∧ r = dict (zip header (VStr <$> take (length header) row))
    ∧ (∀ extra, fetch_row header (take (length header) row ++ extra) = r)
    ∧ ∀ name v, r !! name = Some v →
        ∃ j cell, (j < length header)%nat ∧ header !! j = Some name
                  ∧ row !! j = Some cell ∧ v = VStr cell.
Proof.
  intros Hi Hlong. exists (fetch_row header row).
  assert (length (take (length header) row) = length header) as Hlen
    by (rewrite length_take; lia).
  split; [|split; [|split]].
  - simpl. by rewrite list_lookup_fmap, Hi.
  - rewrite <- fetch_row_take, fetch_row_pad. unfold pad.
    by rewrite Hlen, Nat.sub_diag, app_nil_r.
  - intros extra.
    rewrite <- (fetch_row_take header (_ ++ _)), take_app_length' by done.
    apply fetch_row_take.
  - intros name v (j & Hj & -> & _)%fetch_row_lookup.
    pose proof (lookup_lt_Some _ _ _ Hj) as Hlt.
    destruct (lookup_lt_is_Some_2 row j) as [cell Hcell]; [lia|].
    exists j, cell. by rewrite Hcell.
Qed.

Lemma long_row_is_truncated_witness :
  let header := ["line_id"; "gold_grams"]%string in
  let data := [["L1"; "5"; "60"; "spare"]]%string in
  let row := ["L1"; "5"; "60"; "spare"]%string in
  data !! 0%nat = Some row
  ∧ (length header < length row)%nat
  ∧ ∃ r,
      fetch_sheet_values (header :: data) !! 0%nat = Some r
      ∧ r = dict (zip header (VStr <$> take (length header) row))
      ∧ (∀ extra, fetch_row header (take (length header) row ++ extra) = r)
      ∧ ∀ name v, r !! name = Some v →
          ∃ j cell, (j < length header)%nat ∧ header !! j = Some name
                    ∧ row !! j = Some cell ∧ v = VStr cell.
Proof.
  intros header data row.
  assert (data !! 0%nat = Some row) as Hi by reflexivity.
  assert (length header < length row)%nat as Hlen by (simpl; lia).
  split; [exact Hi|]. split; [exact Hlen|].
  exact (long_row_is_truncated header data 0 row Hi Hlen).
Defined.

(** ** Grouping *)

Section Grouping.

Local Open Scope nat_scope.
Implicit Types (r : gmap string value) (rows : list (gmap string value)).
Implicit Types (k : value) (ks : list value) (f : value → group) (g : group).

Lemma first_keys_elem ks k : k ∈ first_keys ks ↔ k ∈ ks.
Proof.
  induction ks as [|a ks IH]; [done|]. simpl.
  rewrite !elem_of_cons, list_elem_of_filter, IH.
  destruct (decide (k = a)); tauto.
Qed.

Lemma first_keys_NoDup ks : NoDup (first_keys ks).
Proof.
  induction ks as [|a ks IH]; simpl; [constructor|].
  apply NoDup_cons. split; [|by apply NoDup_filter].
  rewrite list_elem_of_filter. by intros [? _].
Qed.

Lemma first_keys_snoc ks k :
  first_keys (ks ++ [k])
  = if decide (k ∈ ks) then first_keys ks else first_keys ks ++ [k].
Proof.
  induction ks as [|a ks IH].
  - destruct (decide (k ∈ [])) as [Hin|_]; [|done].
    by apply not_elem_of_nil in Hin.
  - cbn [app first_keys]. rewrite IH.
    destruct (decide (k ∈ ks)) as [Hin|Hnin];
      destruct (decide (k ∈ a :: ks)) as [Hin'|Hnin']; try done.
    + destruct Hnin'. by apply list_elem_of_further.
    + apply elem_of_cons in Hin' as [->|?]; [|done].
      rewrite filter_app, filter_cons_False by (by intros ?; auto).
      by rewrite filter_nil, app_nil_r.
    + apply not_elem_of_cons in Hnin' as [Hne _].
      by rewrite filter_app, filter_cons_True by done.
Qed.

(** Keys that come earlier in [first_keys] occur in the list before any
    occurrence of those that come later. *)
Lemma first_keys_order ks i j ki kj :
  i < j →
  first_keys ks !! i = Some ki → first_keys ks !! j = Some kj →
  ∃ p, ks !! p = Some ki ∧ ∀ q, q ≤ p → ks !! q ≠ Some kj.
Proof.
  revert i j ki kj. induction ks as [|k ks IH] using rev_ind;
    intros i j ki kj Hij Hi Hj; [done|].
  rewrite first_keys_snoc in Hi, Hj.
  assert (∀ p, ks !! p = Some ki →
               (ks ++ [k]) !! p = Some ki ∧ p < length ks) as Hlift.
  { intros p Hp. split; [by apply lookup_app_l_Some|by eapply lookup_lt_Some]. }
  destruct (decide (k ∈ ks)) as [Hin|Hnin].
  - destruct (IH i j ki kj Hij Hi Hj) as (p & Hp & Hq).
    destruct (Hlift p Hp) as [Hp' Hlt].
    exists p. split; [done|]. intros q Hle.
    rewrite lookup_app_l by lia. by apply Hq.
  - apply lookup_snoc_Some in Hj as [[Hjlt Hj]|[Hjeq ->]].
    + rewrite lookup_app_l in Hi by lia.
      destruct (IH i j ki kj Hij Hi Hj) as (p & Hp & Hq).
      destruct (Hlift p Hp) as [Hp' Hlt].
      exists p. split; [done|]. intros q Hle.
      rewrite lookup_app_l by lia. by apply Hq.
    + rewrite lookup_app_l in Hi by lia.
      apply list_elem_of_lookup_2, (proj1 (first_keys_elem _ _)),
        list_elem_of_lookup_1 in Hi as [p Hp].
      destruct (Hlift p Hp) as [Hp' Hlt].
      exists p. split; [done|]. intros q Hle.
      rewrite lookup_app_l by lia.
      intros Hq. by apply Hnin, (list_elem_of_lookup_2 _ q).
Qed.

(** *** The dict operations on a tabulated dict *)

Lemma contains_tabulate f ks k :
  Dict.contains (Dict.tabulate f ks) k = bool_decide (k ∈ ks).
Proof.
  induction ks as [|a ks IH]; simpl; [done|].
  fold (Dict.tabulate f ks). fold (Dict.contains (Dict.tabulate f ks) k).
  rewrite IH. destruct (decide (a = k)) as [->|Hne].
  - rewrite bool_decide_eq_true_2 by done.
    by rewrite (bool_decide_eq_true_2 (k ∈ k :: ks)) by apply list_elem_of_here.
  - rewrite bool_decide_eq_false_2 by done. simpl.
    apply bool_decide_ext. rewrite elem_of_cons. split; [tauto|].
    by intros [->|?].
Qed.

Lemma getitem_tabulate f ks k :
  k ∈ ks → Dict.getitem (Dict.tabulate f ks) k = Ret (f k).
Proof.
  induction ks as [|a ks IH]; [by intros ?%not_elem_of_nil|].
  intros Hin. simpl. destruct (decide (a = k)) as [->|Hne]; [done|].
  apply IH. apply elem_of_cons in Hin as [->|]; done.
Qed.

Lemma setitem_tabulate_new f ks k g :
  k ∉ ks →
  Dict.setitem (Dict.tabulate f ks) k g = Dict.tabulate f ks ++ [(k, g)].
Proof.
  induction ks as [|a ks IH]; [done|].
  intros [Hne Hnin]%not_elem_of_cons. simpl.
  rewrite decide_False by done. f_equal. by apply IH.
Qed.

Lemma setitem_tabulate_old f ks k g :
  NoDup ks → k ∈ ks →
  Dict.setitem (Dict.tabulate f ks) k g
  = Dict.tabulate (λ k', if decide (k' = k) then g else f k') ks.
Proof.
  induction 1 as [|a ks Ha Hnd IH]; [by intros ?%not_elem_of_nil|].
  intros Hin. simpl. destruct (decide (a = k)) as [->|Hne].
  - f_equal. apply list_fmap_ext. intros _ k' Hk'%list_elem_of_lookup_2.
    rewrite decide_False; [done|]. by intros ->.
  - f_equal. apply IH. apply elem_of_cons in Hin as [->|]; done.
Qed.

Lemma getitem_snoc f ks k g :
  k ∉ ks → Dict.getitem (Dict.tabulate f ks ++ [(k, g)]) k = Ret g.
Proof.
  induction ks as [|a ks IH]; simpl.
  - intros _. by rewrite decide_True.
  - intros [Hne Hnin]%not_elem_of_cons. rewrite decide_False by done.
    by apply IH.
Qed.

Lemma setitem_snoc f ks k g g' :
  k ∉ ks →
  Dict.setitem (Dict.tabulate f ks ++ [(k, g)]) k g'
  = Dict.tabulate f ks ++ [(k, g')].
Proof.
  induction ks as [|a ks IH]; simpl.
  - intros _. by rewrite decide_True.
  - intros [Hne Hnin]%not_elem_of_cons. rewrite decide_False by done.
    f_equal. by apply IH.
Qed.

(** *** The loop of [build_dashboard_json] *)

Lemma filter_key_empty rows k :
  k ∉ key_of <$> rows → filter (λ r, key_of r = k) rows = [].
Proof.
  intros Hnin. induction rows as [|r rows IH]; [done|].
  apply not_elem_of_cons in Hnin as [Hne Hnin].
  rewrite filter_cons_False by (by intros ?; auto). by apply IH.
Qed.

Lemma filter_key_nonempty rows k :
  k ∈ key_of <$> rows →
  ∃ r0 rest, filter (λ r, key_of r = k) rows = r0 :: rest.
Proof.
  intros (r & -> & Hr)%list_elem_of_fmap.
  assert (r ∈ filter (λ r', key_of r' = key_of r) rows) as Hin
    by (by apply list_elem_of_filter).
  destruct (filter _ rows) as [|r0 rest]; [|by eauto].
  by apply not_elem_of_nil in Hin.
Qed.

Lemma group_of_snoc_other rows r k :
  key_of r ≠ k → group_of (rows ++ [r]) k = group_of rows k.
Proof.
  intros Hne. unfold group_of.
  by rewrite filter_app, (filter_cons_False _ r), filter_nil, app_nil_r.
Qed.

Lemma group_of_snoc_old rows r :
  key_of r ∈ key_of <$> rows →
  group_of (rows ++ [r]) (key_of r)
  = append_record (group_of rows (key_of r)) r.
Proof.
  intros (r0 & rest & Hf)%filter_key_nonempty. unfold group_of.
  rewrite filter_app, (filter_cons_True _ r), filter_nil by done.
  by rewrite Hf.
Qed.

Lemma group_of_snoc_new rows r :
  key_of r ∉ key_of <$> rows →
  group_of (rows ++ [r]) (key_of r)
  = append_record
      (Group (key_of r) (get r "line_name" (VStr ""))
             (get r "location" (VStr "")) []) r.
Proof.
  intros Hf%filter_key_empty. unfold group_of.
  rewrite filter_app, (filter_cons_True _ r), filter_nil by done.
  by rewrite Hf.
Qed.

Lemma group_row_by_line rows r :
  group_row (by_line_of rows) r = Ret (by_line_of (rows ++ [r])).
Proof.
  unfold group_row, by_line_of.
  change (get r "line_id" (VStr "UNKNOWN")) with (key_of r).
  rewrite contains_tabulate, fmap_app.
  change (key_of <$> [r]) with [key_of r]. rewrite first_keys_snoc.
  pose proof (first_keys_NoDup (key_of <$> rows)) as Hnd.
  destruct (decide (key_of r ∈ key_of <$> rows)) as [Hin|Hnin].
  - rewrite bool_decide_eq_true_2 by (by apply first_keys_elem). simpl.
    rewrite getitem_tabulate by (by apply first_keys_elem). simpl.
    rewrite setitem_tabulate_old by (by try apply first_keys_elem).
    f_equal. unfold Dict.tabulate. apply list_fmap_ext. intros _ k _. f_equal.
    destruct (decide (k = key_of r)) as [->|Hne].
    + by rewrite group_of_snoc_old.
    + by rewrite group_of_snoc_other.
  - rewrite bool_decide_eq_false_2 by (by rewrite first_keys_elem). simpl.
    rewrite setitem_tabulate_new by (by rewrite first_keys_elem).
    rewrite getitem_snoc by (by rewrite first_keys_elem). simpl.
    rewrite setitem_snoc by (by rewrite first_keys_elem).
    unfold Dict.tabulate. rewrite fmap_app. simpl.
    rewrite group_of_snoc_new by done. f_equal. apply (f_equal (.++ _)).
    apply list_fmap_ext. intros _ k Hk%list_elem_of_lookup_2. f_equal.
    rewrite group_of_snoc_other; [done|]. intros <-.
    by apply Hnin, first_keys_elem.
Qed.

Lemma group_rows_by_line rows0 rows :
  group_rows (by_line_of rows0) rows = Ret (by_line_of (rows0 ++ rows)).
Proof.
  revert rows0. induction rows as [|r rows IH]; intros rows0.
  - by rewrite app_nil_r.
  - cbn [group_rows]. rewrite group_row_by_line. simpl.
    by rewrite IH, <- app_assoc.
Qed.

Lemma build_dashboard_json_ret rows :
  build_dashboard_json rows
  = Ret (Dashboard (groups_by_first_encounter rows)).
Proof.
  unfold build_dashboard_json.
  change (@nil (value * group)) with (by_line_of []).
  rewrite group_rows_by_line. simpl. do 2 f_equal.
  unfold by_line_of, Dict.values, Dict.tabulate, groups_by_first_encounter.
  rewrite <- list_fmap_compose. by apply list_fmap_ext.
Qed.

Lemma group_of_line_id rows k : line_id (group_of rows k) = k.
Proof. done. Qed.

Lemma groups_line_ids rows :
  line_id <$> groups_by_first_encounter rows = first_keys (key_of <$> rows).
Proof.
  unfold groups_by_first_encounter. rewrite <- list_fmap_compose.
  rewrite <- (list_fmap_id (first_keys _)) at 2. by apply list_fmap_ext.
Qed.

Lemma elem_of_groups rows g :
  g ∈ groups_by_first_encounter rows
  ↔ ∃ k, g = group_of rows k ∧ k ∈ key_of <$> rows.
Proof.
  unfold groups_by_first_encounter. rewrite list_elem_of_fmap.
  by setoid_rewrite first_keys_elem.
Qed.

(** The group of a record is a group of the output and holds the record. *)
Lemma group_of_record rows r :
  r ∈ rows →
  group_of rows (key_of r) ∈ groups_by_first_encounter rows
  ∧ r ∈ records (group_of rows (key_of r)).
Proof.
  intros Hr. split.
  - apply elem_of_groups. exists (key_of r). split; [done|].
    by apply list_elem_of_fmap_2.
  - simpl. by apply list_elem_of_filter.
Qed.

(** The records of the keys, taken together, are the rows. *)
Lemma concat_filter_keys ks rows :
  NoDup ks → (∀ r, r ∈ rows → key_of r ∈ ks) →
  concat ((λ k, filter (λ r, key_of r = k) rows) <$> ks) ≡ₚ rows.
Proof.
  intros Hnd. revert rows.
  induction Hnd as [|k ks Hk Hnd IH]; intros rows Hcover.
  - destruct rows as [|r rows]; [done|].
    exfalso. apply (not_elem_of_nil (key_of r)), Hcover, list_elem_of_here.
  - cbn [fmap list_fmap concat].
    etrans; [|apply (filter_app_complement (λ r, key_of r = k) rows)].
    apply Permutation_app_head.
    etrans; [|apply (IH (filter (λ r, ¬ key_of r = k) rows))].
    + apply reflexive_eq. f_equal. apply list_fmap_ext.
      intros _ k' Hk'%list_elem_of_lookup_2. symmetry.
      apply list_filter_filter_l. intros r Hr1 Hr2. apply Hk.
      by rewrite <- Hr2, Hr1.
    + intros r [Hne Hr]%list_elem_of_filter.
      specialize (Hcover r Hr). apply elem_of_cons in Hcover as [?|?]; done.
Qed.

Lemma sum_lengths_concat {A : Type} (ls : list (list A)) :
  sum_list (length <$> ls) = length (concat ls).
Proof.
  induction ls as [|l ls IH]; [done|].
  cbn [fmap list_fmap concat sum_list sum_list_with].
  fold (length <$> ls). fold (sum_list (length <$> ls)).
  by rewrite length_app, IH.
Qed.

Lemma groups_records rows :
  records <$> groups_by_first_encounter rows
  = (λ k, filter (λ r, key_of r = k) rows) <$> first_keys (key_of <$> rows).
Proof.
  unfold groups_by_first_encounter. rewrite <- list_fmap_compose.
  by apply list_fmap_ext.
Qed.

Lemma groups_records_partition rows :
  concat (records <$> groups_by_first_encounter rows) ≡ₚ rows.
Proof.
  rewrite groups_records.
  apply concat_filter_keys; [apply first_keys_NoDup|].
  intros r Hr. by apply first_keys_elem, list_elem_of_fmap_2.
Qed.

End Grouping.

(** C3.  Grouping is a partition of the input: for every sequence of
    records the groups' record sequences, taken together, are the input
    records up to order, every input record lies in the record sequence of
    exactly one group, and the lengths of the record sequences add up to
    the number of input records. *)
Theorem grouping_is_a_partition (rows : list (gmap string value)) :
  ∃ d,
    build_dashboard_json rows = Ret d
    ∧ sum_list ((λ g, length (records g)) <$> lines d) = length rows
    ∧ concat (records <$> lines d) ≡ₚ rows
    ∧ ∀ r, r ∈ rows →
        ∃ g, g ∈ lines d ∧ r ∈ records g
             ∧ ∀ g', g' ∈ lines d → r ∈ records g' → g' = g.
Proof.
  exists (Dashboard (groups_by_first_encounter rows)).
  split; [apply build_dashboard_json_ret|]. cbn [lines].
  split; [|split].
  - rewrite <- (Permutation_length (groups_records_partition rows)).
    rewrite <- sum_lengths_concat, <- list_fmap_compose. done.
  - apply groups_records_partition.
  - intros r Hr. exists (group_of rows (key_of r)).
    destruct (group_of_record rows r Hr) as [Hg Hin].
    split; [done|]. split; [done|].
    intros g' (k & -> & _)%elem_of_groups Hr'. cbn [records group_of] in Hr'.
    by apply list_elem_of_filter in Hr' as [-> _].
Qed.

(** C4.  For every sequence of records the groups of the output come in
    the order in which their keys are first met in the input; each group
    holds the records of its key in input order, and its [line_name] and
    [location] are read from the first of them, whatever the later records
    of the group carry in those fields. *)
Theorem groups_in_first_encounter_order (rows : list (gmap string value)) :
  ∃ d,
    build_dashboard_json rows = Ret d
    ∧ line_id <$> lines d = first_keys (key_of <$> rows)
    ∧ (∀ (i j : nat) ki kj,
         (i < j)%nat →
         (line_id <$> lines d) !! i = Some ki →
         (line_id <$> lines d) !! j = Some kj →
         ∃ p : nat, (key_of <$> rows) !! p = Some ki
              ∧ ∀ q : nat, (q ≤ p)%nat → (key_of <$> rows) !! q ≠ Some kj)
    ∧ ∀ g, g ∈ lines d →
        records g = filter (λ r, key_of r = line_id g) rows
        ∧ ∃ r0 rest,
            records g = r0 :: rest
            ∧ line_name g = get r0 "line_name" (VStr "")
            ∧ location g = get r0 "location" (VStr "").
Proof.
  exists (Dashboard (groups_by_first_encounter rows)).
  split; [apply build_dashboard_json_ret|]. cbn [lines].
  rewrite groups_line_ids. split; [done|]. split.
  - intros i j ki kj. apply first_keys_order.
  - intros g (k & -> & Hk)%elem_of_groups. split; [done|].
    destruct (filter_key_nonempty rows k Hk) as (r0 & rest & Hf).
    exists r0, rest. unfold group_of. cbn [records line_name location].
    by rewrite Hf.
Qed.

(** C7.  The group key is the sentinel ["UNKNOWN"] by default only when
    the key [line_id] is absent from the record: a record is grouped under
    the value it has for [line_id] when it has one, so that a record with
    the empty text for [line_id] lies in the group keyed by the empty
    text, which is not the sentinel. *)
Theorem unknown_only_when_line_id_absent
    (rows : list (gmap string value)) (r : gmap string value) :
  r ∈ rows →
  ∃ d g,
    build_dashboard_json rows = Ret d
    ∧ g ∈ lines d ∧ r ∈ records g
    ∧ line_id g = match r !! "line_id"%string with
                  | Some v => v
                  | None => VStr "UNKNOWN"
                  end
    ∧ (r !! "line_id"%string = None → line_id g = VStr "UNKNOWN")
    ∧ (r !! "line_id"%string = Some (VStr "") →
       line_id g = VStr "" ∧ line_id g ≠ VStr "UNKNOWN").
Proof.
  intros Hr.
  exists (Dashboard (groups_by_first_encounter rows)),
         (group_of rows (key_of r)).
  destruct (group_of_record rows r Hr) as [Hg Hin].
  split; [apply build_dashboard_json_ret|].
  split; [done|]. split; [done|]. cbn [line_id group_of]. unfold key_of.
  split; [done|]. split; intros ->; done.
Qed.

Lemma unknown_only_when_line_id_absent_witness :
  let r : gmap string value :=
    {[ "line_id"%string := VStr ""; "gold_grams"%string := VStr "5" ]} in
  let rows : list (gmap string value) :=
    [ {[ "gold_grams"%string := VStr "7" ]}; r ] in
  r ∈ rows
  ∧ ∃ d g,
      build_dashboard_json rows = Ret d
      ∧ g ∈ lines d ∧ r ∈ records g
      ∧ line_id g = match r !! "line_id"%string with
                    | Some v => v
                    | None => VStr "UNKNOWN"
                    end
      ∧ (r !! "line_id"%string = None → line_id g = VStr "UNKNOWN")
      ∧ (r !! "line_id"%string = Some (VStr "") →
         line_id g = VStr "" ∧ line_id g ≠ VStr "UNKNOWN").
Proof.
  intros r rows.
  assert (r ∈ rows) as Hr by (apply list_elem_of_further, list_elem_of_here).
  split; [exact Hr|].
  exact (unknown_only_when_line_id_absent rows r Hr).
Defined.

(** C10.  For every sequence of records, a record whose [line_id] is the
    text ["UNKNOWN"] and a record without [line_id] lie in the same group:
    the output has one single group of key ["UNKNOWN"], which holds both. *)
Theorem unknown_text_joins_default_group
    (rows : list (gmap string value)) (r1 r2 : gmap string value) :
  r1 ∈ rows → r2 ∈ rows →
  r1 !! "line_id"%string = Some (VStr "UNKNOWN") →
  r2 !! "line_id"%string = None →
  ∃ d g,
    build_dashboard_json rows = Ret d
    ∧ g ∈ lines d
    ∧ line_id g = VStr "UNKNOWN"
    ∧ r1 ∈ records g ∧ r2 ∈ records g
    ∧ ∀ g', g' ∈ lines d → line_id g' = VStr "UNKNOWN" → g' = g.
Proof.
  intros Hr1 Hr2 Hk1 Hk2.
  assert (key_of r1 = VStr "UNKNOWN") as Hkey1 by (unfold key_of; by rewrite Hk1).
  assert (key_of r2 = VStr "UNKNOWN") as Hkey2 by (unfold key_of; by rewrite Hk2).
  exists (Dashboard (groups_by_first_encounter rows)),
         (group_of rows (VStr "UNKNOWN")).
  destruct (group_of_record rows r1 Hr1) as [Hg Hin1].
  destruct (group_of_record rows r2 Hr2) as [_ Hin2].
  rewrite Hkey1 in Hg, Hin1. rewrite Hkey2 in Hin2.
  split; [apply build_dashboard_json_ret|].
  split; [done|]. split; [done|]. split; [done|]. split; [done|].
  intros g' (k & -> & _)%elem_of_groups Hk. cbn [line_id group_of] in Hk.
  by rewrite Hk.
Qed.

Lemma unknown_text_joins_default_group_witness :
  let r1 : gmap string value :=
    {[ "line_id"%string := VStr "UNKNOWN"; "line_name"%string := VStr "Pit" ]} in
  let r2 : gmap string value := {[ "gold_grams"%string := VStr "5" ]} in
  let rows : list (gmap string value) :=
    [ r2; {[ "line_id"%string := VStr "L1" ]}; r1 ] in
  r1 ∈ rows ∧ r2 ∈ rows
  ∧ r1 !! "line_id"%string = Some (VStr "UNKNOWN")
  ∧ r2 !! "line_id"%string = None
  ∧ ∃ d g,
      build_dashboard_json rows = Ret d
      ∧ g ∈ lines d
      ∧ line_id g = VStr "UNKNOWN"
      ∧ r1 ∈ records g ∧ r2 ∈ records g
      ∧ ∀ g', g' ∈ lines d → line_id g' = VStr "UNKNOWN" → g' = g.
Proof.
  intros r1 r2 rows.
  assert (r1 ∈ rows) as Hr1
    by (apply list_elem_of_further, list_elem_of_further, list_elem_of_here).
  assert (r2 ∈ rows) as Hr2 by apply list_elem_of_here.
  assert (r1 !! "line_id"%string = Some (VStr "UNKNOWN")) as Hk1
    by (vm_compute; reflexivity).
  assert (r2 !! "line_id"%string = None) as Hk2 by (vm_compute; reflexivity).
  split; [exact Hr1|]. split; [exact Hr2|].
  split; [exact Hk1|]. split; [exact Hk2|].
  exact (unknown_text_joins_default_group rows r1 r2 Hr1 Hr2 Hk1 Hk2).
Defined.

(** * Further properties *)

(** ** Cleaning of the text before it is read as a number *)

Section Cleaning.

Implicit Types (s : string) (l k : list ascii) (p : ascii → bool).

Lemma chars_append s1 s2 :
  Text.chars (s1 +:+ s2) = Text.chars s1 ++ Text.chars s2.
Proof.
  unfold Text.chars. induction s1 as [|c s1 IH]; [done|].
  simpl. by rewrite IH.
Qed.

Lemma chars_text l : Text.chars (Text.text l) = l.
Proof. apply list_ascii_of_string_of_list_ascii. Qed.

Lemma text_chars s : Text.text (Text.chars s) = s.
Proof. apply string_of_list_ascii_of_string. Qed.

Lemma remove_commas_append s1 s2 :
  Text.remove_commas (s1 +:+ s2)
  = Text.remove_commas s1 +:+ Text.remove_commas s2.
Proof.
  unfold Text.remove_commas. rewrite chars_append, List.filter_app.
  rewrite <- (text_chars (Text.text _ +:+ Text.text _)).
  by rewrite chars_append, !chars_text.
Qed.

Lemma drop_while_all p l k :
  Forall (λ c, p c = true) l → Text.drop_while p (l ++ k) = Text.drop_while p k.
Proof. induction 1 as [|c l Hc _ IH]; simpl; [done|]. by rewrite Hc. Qed.

Lemma drop_while_app p l k :
  Text.drop_while p l ≠ [] →
  Text.drop_while p (l ++ k) = Text.drop_while p l ++ k.
Proof.
  induction l as [|c l IH]; simpl; [done|].
  destruct (p c); [exact IH|done].
Qed.

Lemma drop_while_app_all p l k :
  Text.drop_while p l = [] → Forall (λ c, p c = true) k →
  Text.drop_while p (l ++ k) = [].
Proof.
  intros Hl Hk. induction l as [|c l IH]; simpl in *.
  - rewrite <- (app_nil_r k). by rewrite drop_while_all.
  - destruct (p c); [by apply IH|done].
Qed.

(** Characters on both sides that [p] accepts do not change what is left
    after stripping. *)
Lemma strip_with_outer p l1 l l2 :
  Forall (λ c, p c = true) l1 → Forall (λ c, p c = true) l2 →
  Text.strip_with p (l1 ++ l ++ l2) = Text.strip_with p l.
Proof.
  intros H1 H2. unfold Text.strip_with. f_equal.
  rewrite drop_while_all by done.
  destruct (Text.drop_while p l) as [|c d] eqn:Hd.
  - by rewrite drop_while_app_all.
  - rewrite drop_while_app, Hd by (by rewrite Hd).
    rewrite rev_app_distr. apply drop_while_all.
    rewrite Forall_forall in *. intros x Hx%list_elem_of_In%in_rev.
    by apply H2, list_elem_of_In.
Qed.

Lemma space_is_no_comma c :
  Text.is_unicode_space c = true → negb (Text.code c =? 44) = true.
Proof.
  unfold Text.is_unicode_space, Text.is_ascii_space. intros H.
  destruct (Text.code c =? 44) eqn:Hc; [|done].
  apply Z.eqb_eq in Hc. rewrite Hc in H. vm_compute in H. discriminate H.
Qed.

Lemma remove_commas_spaces s :
  Forall (λ c, Text.is_unicode_space c = true) (Text.chars s) →
  Text.remove_commas s = s.
Proof.
  intros H. unfold Text.remove_commas.
  rewrite <- (text_chars s) at 2. f_equal.
  induction H as [|c l Hc _ IH]; simpl; [done|].
  by rewrite (space_is_no_comma c Hc), IH.
Qed.

End Cleaning.

(** X1.  [to_float] drops a comma wherever it stands, not only between
    groups of three digits: the text with a comma and the text without it
    give the same number. *)
Theorem to_float_ignores_commas (s1 s2 : string) :
  to_float (VStr (s1 +:+ "," +:+ s2)) = to_float (VStr (s1 +:+ s2)).
Proof.
  unfold to_float, str.
  rewrite !remove_commas_append.
  by change (Text.remove_commas ",") with ""%string.
Qed.

(** X2.  White space around the text of a cell does not change the number:
    [to_float] reads the text between. *)
Theorem to_float_ignores_outer_space (ws1 s ws2 : string) :
  Forall (λ c, Text.is_unicode_space c = true) (Text.chars ws1) →
  Forall (λ c, Text.is_unicode_space c = true) (Text.chars ws2) →
  to_float (VStr (ws1 +:+ s +:+ ws2)) = to_float (VStr s).
Proof.
  intros H1 H2. unfold to_float, str. do 2 f_equal.
  rewrite !remove_commas_append.
  rewrite (remove_commas_spaces ws1), (remove_commas_spaces ws2) by done.
  unfold Text.strip. f_equal.
  rewrite !chars_append. by apply strip_with_outer.
Qed.

Lemma to_float_ignores_outer_space_witness :
  let ws1 := String " " (String (ascii_of_nat 9) "") in
  let ws2 := String (ascii_of_nat 160) (String (ascii_of_nat 10) "") in
  Forall (λ c, Text.is_unicode_space c = true) (Text.chars ws1)
  ∧ Forall (λ c, Text.is_unicode_space c = true) (Text.chars ws2)
  ∧ to_float (VStr (ws1 +:+ "1,234.5" +:+ ws2)) = to_float (VStr "1,234.5").
Proof.
  intros ws1 ws2.
  assert (Forall (λ c, Text.is_unicode_space c = true) (Text.chars ws1)) as H1
    by (repeat constructor).
  assert (Forall (λ c, Text.is_unicode_space c = true) (Text.chars ws2)) as H2
    by (repeat constructor).
  split; [exact H1|]. split; [exact H2|].
  exact (to_float_ignores_outer_space ws1 "1,234.5" ws2 H1 H2).
Defined.

(** ** Enrichment *)

Section EnrichmentMore.

Implicit Types (row r : gmap string value) (k : string).

Lemma mul_nan_l y : PyFloat.mul S754_nan y = S754_nan.
Proof. done. Qed.

Lemma mul_nan_r x : PyFloat.mul x S754_nan = S754_nan.
Proof. by destruct x. Qed.

Lemma sub_nan_l y : PyFloat.sub S754_nan y = S754_nan.
Proof. done. Qed.

Lemma to_number_of_ret x v : to_float x = Ret v → to_number x = v.
Proof. rewrite to_float_ret. by intros [= ->]. Qed.

Lemma enrich_dom row :
  dom (enrich row) = dom row ∪ list_to_set derived_fields.
Proof.
  unfold enrich, derived_fields. rewrite !dom_insert_L. simpl.
  apply set_eq. intros k.
  rewrite !elem_of_union, !elem_of_singleton, elem_of_empty. tauto.
Qed.

Lemma enrich_key_of r : key_of (enrich r) = key_of r.
Proof.
  unfold key_of. rewrite enrich_lookup_other; [done|].
  unfold derived_fields. rewrite !not_elem_of_cons.
  repeat split; try done. apply not_elem_of_nil.
Qed.

Lemma enrich_get_text r k d :
  k ∉ derived_fields → get (enrich r) k d = get r k d.
Proof. intros Hk. unfold get. by rewrite enrich_lookup_other. Qed.

End EnrichmentMore.

(** X3.  The coercion lets the text of a NaN through: when the mass or
    the unit price of a row is text that [to_float] reads as NaN, the
    revenue and the profit of the row are NaN. *)
Theorem nan_text_reaches_revenue_and_profit
    (row : gmap string value) (k s : string) :
  k = "gold_grams"%string ∨ k = "gold_price_usd_per_g"%string →
  row !! k = Some (VStr s) →
  to_float (VStr s) = Ret S754_nan →
  ∃ row',
    compute_row row = Ret row'
    ∧ row' !! "revenue_usd"%string = Some (VFloat S754_nan)
    ∧ row' !! "profit_usd"%string = Some (VFloat S754_nan).
Proof.
  intros Hk Hrow Hnan%to_number_of_ret.
  exists (enrich row). split; [apply compute_row_ret|].
  assert (to_number (get row k VNone) = S754_nan) as Hget
    by (unfold get; by rewrite Hrow).
  unfold enrich, spec_revenue, spec_profit.
  destruct Hk as [-> | ->]; rewrite Hget;
    rewrite ?mul_nan_l, ?mul_nan_r, sub_nan_l; split.
  all: rewrite ?lookup_insert_ne by done; apply lookup_insert_eq.
Qed.

Lemma nan_text_reaches_revenue_and_profit_witness :
  let row : gmap string value :=
    {[ "gold_grams"%string := VStr " NaN "; "gold_price_usd_per_g"%string := VStr "60" ]} in
  ("gold_grams"%string = "gold_grams"%string
   ∨ "gold_grams"%string = "gold_price_usd_per_g"%string)
  ∧ row !! "gold_grams"%string = Some (VStr " NaN ")
  ∧ to_float (VStr " NaN ") = Ret S754_nan
  ∧ ∃ row',
      compute_row row = Ret row'
      ∧ row' !! "revenue_usd"%string = Some (VFloat S754_nan)
      ∧ row' !! "profit_usd"%string = Some (VFloat S754_nan).
Proof.
  intros row.
  assert ("gold_grams"%string = "gold_grams"%string
          ∨ "gold_grams"%string = "gold_price_usd_per_g"%string) as Hk
    by (left; reflexivity).
  assert (row !! "gold_grams"%string = Some (VStr " NaN ")) as Hrow
    by (vm_compute; reflexivity).
  assert (to_float (VStr " NaN ") = Ret S754_nan) as Hnan
    by (vm_compute; reflexivity).
  split; [exact Hk|]. split; [exact Hrow|]. split; [exact Hnan|].
  exact (nan_text_reaches_revenue_and_profit row _ _ Hk Hrow Hnan).
Defined.

(** X4.  A row without a usable number, each of the six source fields
    being absent or coerced to 0.0, gets 0.0 in all four derived fields:
    the guard on the volume keeps 0/0 away. *)
Theorem unusable_numbers_give_zeros (row : gmap string value) :
  (∀ k, k ∈ source_fields → to_float (get row k VNone) = Ret PyFloat.zero) →
  ∃ row',
    compute_row row = Ret row'
    ∧ ∀ d, d ∈ derived_fields → row' !! d = Some (VFloat PyFloat.zero).
Proof.
  intros H. exists (enrich row). split; [apply compute_row_ret|].
  assert (∀ k, k ∈ source_fields → to_number (get row k VNone) = PyFloat.zero)
    as Hz by (intros k Hk; by apply to_number_of_ret, H).
  unfold enrich. rewrite !Hz by (unfold source_fields; rewrite !elem_of_cons; auto 10).
  change (spec_avg_grade PyFloat.zero PyFloat.zero) with PyFloat.zero.
  change (spec_revenue PyFloat.zero PyFloat.zero) with PyFloat.zero.
  change (spec_total_cost PyFloat.zero PyFloat.zero PyFloat.zero)
    with PyFloat.zero.
  change (spec_profit PyFloat.zero PyFloat.zero PyFloat.zero PyFloat.zero
            PyFloat.zero) with PyFloat.zero.
  intros d. unfold derived_fields. rewrite !elem_of_cons, elem_of_nil.
  intros [->|[->|[->|[->|[]]]]];
    rewrite ?lookup_insert_ne by done; apply lookup_insert_eq.
Qed.

Lemma unusable_numbers_give_zeros_witness :
  let row := fetch_row ["line_id"; "gold_grams"; "diesel_cost_usd"]%string
                       ["L1"; "n/a"]%string in
  (∀ k, k ∈ source_fields → to_float (get row k VNone) = Ret PyFloat.zero)
  ∧ ∃ row',
      compute_row row = Ret row'
      ∧ ∀ d, d ∈ derived_fields → row' !! d = Some (VFloat PyFloat.zero).
Proof.
  intros row.
  assert (∀ k, k ∈ source_fields → to_float (get row k VNone) = Ret PyFloat.zero)
    as H.
  { intros k. unfold source_fields. rewrite !elem_of_cons, elem_of_nil.
    intros [->|[->|[->|[->|[->|[->|[]]]]]]]; vm_compute; reflexivity. }
  split; [exact H|]. exact (unusable_numbers_give_zeros row H).
Defined.

(** X5.  Enrichment adds keys and removes none: the keys of the enriched
    row are those of the row together with the four derived names. *)
Theorem enrichment_adds_the_derived_keys (row : gmap string value) :
  ∃ row',
    compute_row row = Ret row'
    ∧ dom row' = dom row ∪ list_to_set derived_fields.
Proof.
  exists (enrich row). split; [apply compute_row_ret|apply enrich_dom].
Qed.

(** ** Grouping *)

Section GroupingMore.

Local Open Scope nat_scope.
Implicit Types (r : gmap string value) (rows : list (gmap string value)).
Implicit Types (k : value) (ks : list value).

Lemma filter_key_enrich rows k :
  filter (λ r, key_of r = k) (enrich <$> rows)
  = enrich <$> filter (λ r, key_of r = k) rows.
Proof.
  induction rows as [|r rows IH]; [done|]. rewrite fmap_cons.
  destruct (decide (key_of r = k)) as [Hk|Hk].
  - rewrite !filter_cons_True by (by rewrite ?enrich_key_of).
    by rewrite fmap_cons, IH.
  - by rewrite !filter_cons_False by (by rewrite ?enrich_key_of).
Qed.

Lemma keys_enrich rows : key_of <$> (enrich <$> rows) = key_of <$> rows.
Proof.
  rewrite <- list_fmap_compose. apply list_fmap_ext.
  intros _ r _. apply enrich_key_of.
Qed.

Lemma first_keys_length ks : length (first_keys ks) ≤ length ks.
Proof.
  induction ks as [|k ks IH]; simpl; [done|].
  pose proof (length_filter (λ k', k' ≠ k) (first_keys ks)). lia.
Qed.

Lemma filter_all {A : Type} (P : A → Prop) `{!∀ x, Decision (P x)}
    (l : list A) :
  (∀ x, x ∈ l → P x) → filter P l = l.
Proof.
  induction l as [|x l IH]; intros Hall; [done|].
  rewrite filter_cons_True by apply Hall, list_elem_of_here.
  f_equal. apply IH. intros y Hy. by apply Hall, list_elem_of_further.
Qed.

Lemma filter_none {A : Type} (P : A → Prop) `{!∀ x, Decision (P x)}
    (l : list A) :
  (∀ x, x ∈ l → ¬ P x) → filter P l = [].
Proof.
  induction l as [|x l IH]; intros Hall; [done|].
  rewrite filter_cons_False by apply Hall, list_elem_of_here.
  apply IH. intros y Hy. by apply Hall, list_elem_of_further.
Qed.

Lemma first_keys_app ks ks' :
  first_keys (ks ++ ks')
  = first_keys ks ++ filter (λ k, k ∉ ks) (first_keys ks').
Proof.
  induction ks as [|a ks IH].
  - simpl. symmetry. apply filter_all. intros k _. apply not_elem_of_nil.
  - cbn [app first_keys]. rewrite IH, filter_app, list_filter_filter.
    do 2 f_equal. apply list_filter_iff. intros k.
    rewrite not_elem_of_cons. tauto.
Qed.

Lemma first_keys_constant ks k :
  ks ≠ [] → (∀ k', k' ∈ ks → k' = k) → first_keys ks = [k].
Proof.
  intros Hne Hall. destruct ks as [|a ks]; [done|].
  rewrite (Hall a) by apply list_elem_of_here. simpl. f_equal.
  apply filter_none. intros y Hy Hne'. apply Hne'.
  apply Hall, list_elem_of_further. by apply (proj1 (first_keys_elem _ _)).
Qed.

End GroupingMore.

(** X6.  Enrichment does not change the grouping: the enriched rows fall
    into the same groups, in the same order and with the same [line_id],
    [line_name] and [location], as the rows themselves, and the records of
    each group are the enriched records of that group. *)
Theorem enrichment_keeps_the_grouping (rows : list (gmap string value)) :
  ∃ rows' d d',
    compute_numeric_fields rows = Ret rows'
    ∧ build_dashboard_json rows = Ret d
    ∧ build_dashboard_json rows' = Ret d'
    ∧ Forall2
        (λ g g', line_id g' = line_id g
                 ∧ line_name g' = line_name g
                 ∧ location g' = location g
                 ∧ compute_numeric_fields (records g) = Ret (records g'))
        (lines d) (lines d').
Proof.
  exists (enrich <$> rows), (Dashboard (groups_by_first_encounter rows)),
         (Dashboard (groups_by_first_encounter (enrich <$> rows))).
  rewrite compute_numeric_fields_ret, !build_dashboard_json_ret.
  split; [done|]. split; [done|]. split; [done|]. cbn [lines].
  unfold groups_by_first_encounter. rewrite keys_enrich.
  apply Forall2_fmap, Forall_Forall2_diag, Forall_forall. intros k _.
  unfold group_of. cbn [line_id line_name location records].
  rewrite filter_key_enrich, compute_numeric_fields_ret.
  destruct (filter _ rows) as [|r0 rest]; [done|].
  rewrite fmap_cons, !enrich_get_text; [done|..];
    unfold derived_fields; rewrite !not_elem_of_cons;
    repeat split; try done; apply not_elem_of_nil.
Qed.

(** X7.  No two groups of the output have the same key, no group is
    without a record, and there are at most as many groups as rows; no
    row gives no group. *)
Theorem groups_are_distinct_and_not_empty (rows : list (gmap string value)) :
  ∃ d,
    build_dashboard_json rows = Ret d
    ∧ NoDup (line_id <$> lines d)
    ∧ (∀ g, g ∈ lines d → records g ≠ [])
    ∧ (length (lines d) ≤ length rows)%nat
    ∧ (rows = [] → lines d = []).
Proof.
  exists (Dashboard (groups_by_first_encounter rows)).
  split; [apply build_dashboard_json_ret|]. cbn [lines].
  split; [rewrite groups_line_ids; apply first_keys_NoDup|].
  split; [|split].
  - intros g (k & -> & Hk)%elem_of_groups.
    destruct (filter_key_nonempty rows k Hk) as (r0 & rest & Hf).
    cbn [records group_of]. by rewrite Hf.
  - unfold groups_by_first_encounter. rewrite length_fmap.
    etrans; [apply first_keys_length|]. by rewrite length_fmap.
  - by intros ->.
Qed.

(** X8.  Rows that come later leave the earlier groups where they are:
    after more rows, the groups of the rows seen before come first, in the
    same order and under the same [line_id], [line_name] and [location],
    and each holds the records it held followed by its new ones. *)
Theorem later_rows_leave_earlier_groups (rows more : list (gmap string value)) :
  ∃ d d',
    build_dashboard_json rows = Ret d
    ∧ build_dashboard_json (rows ++ more) = Ret d'
    ∧ Forall2
        (λ g g', line_id g' = line_id g
                 ∧ line_name g' = line_name g
                 ∧ location g' = location g
                 ∧ records g `prefix_of` records g')
        (lines d) (take (length (lines d)) (lines d')).
Proof.
  exists (Dashboard (groups_by_first_encounter rows)),
         (Dashboard (groups_by_first_encounter (rows ++ more))).
  rewrite !build_dashboard_json_ret.
  split; [done|]. split; [done|]. cbn [lines].
  unfold groups_by_first_encounter.
  rewrite (fmap_app key_of), first_keys_app, (fmap_app (group_of _)).
  rewrite take_app_length' by (by rewrite !length_fmap).
  apply Forall2_fmap, Forall_Forall2_diag, Forall_forall.
  intros k Hk. apply (proj1 (first_keys_elem _ _)) in Hk.
  destruct (filter_key_nonempty rows k Hk) as (r0 & rest & Hf).
  unfold group_of. cbn [line_id line_name location records].
  rewrite filter_app, Hf. repeat split; try done.
  by eexists.
Qed.

(** X9.  A sheet whose header has no [line_id] column gives one single
    group, keyed ["UNKNOWN"], which holds the enriched records of all the
    data rows in their order. *)
Theorem sheet_without_line_id_gives_one_group
    (header : list string) (data : list (list string)) :
  "line_id"%string ∉ header →
  data ≠ [] →
  ∃ g,
    pipeline (header :: data) = Ret (Dashboard [g])
    ∧ line_id g = VStr "UNKNOWN"
    ∧ compute_numeric_fields (fetch_row header <$> data) = Ret (records g).
Proof.
  intros Hh Hd. unfold pipeline. cbn [fetch_sheet_values].
  rewrite compute_numeric_fields_ret. cbn.
  rewrite build_dashboard_json_ret.
  set (rows := enrich <$> (fetch_row header <$> data)).
  assert (∀ r, r ∈ rows → key_of r = VStr "UNKNOWN") as Hkey.
  { intros r (r1 & -> & (row & -> & _)%list_elem_of_fmap)%list_elem_of_fmap.
    rewrite enrich_key_of. unfold key_of.
    rewrite (proj1 (not_elem_of_dom _ _)); [done|].
    rewrite fetch_row_dom. by rewrite elem_of_list_to_set. }
  exists (group_of rows (VStr "UNKNOWN")).
  split; [|split].
  - do 2 f_equal. unfold groups_by_first_encounter.
    rewrite (first_keys_constant _ (VStr "UNKNOWN")); [done|..].
    + subst rows. by destruct data.
    + intros k (r & -> & Hr)%list_elem_of_fmap. by apply Hkey.
  - done.
  - f_equal. cbn [records group_of]. symmetry. by apply filter_all.
Qed.

Lemma sheet_without_line_id_gives_one_group_witness :
  let header := ["line_name"; "gold_grams"]%string in
  let data := [["Line One"; "5"]; ["Line Two"; "7"]]%string in
  ("line_id"%string ∉ header)
  ∧ data ≠ []
  ∧ ∃ g,
      pipeline (header :: data) = Ret (Dashboard [g])
      ∧ line_id g = VStr "UNKNOWN"
      ∧ compute_numeric_fields (fetch_row header <$> data) = Ret (records g).
Proof.
  intros header data.
  assert ("line_id"%string ∉ header) as Hh
    by (apply (bool_decide_unpack _); vm_compute; exact I).
  assert (data ≠ []) as Hd by discriminate.
  split; [exact Hh|]. split; [exact Hd|].
  exact (sheet_without_line_id_gives_one_group header data Hh Hd).
Defined.

(** ** The materializer and the whole pipeline *)

Section PipelineMore.

Local Open Scope nat_scope.
Implicit Types (header row : list string) (data : list (list string)).
Implicit Types (r : gmap string value).

Lemma fetch_row_text header row name v :
  fetch_row header row !! name = Some v → ∃ s, v = VStr s.
Proof. intros (j & _ & -> & _)%fetch_row_lookup. by eexists. Qed.

Lemma get_text_of_record header row name d :
  name ∉ derived_fields →
  ∃ s, get (enrich (fetch_row header row)) name (VStr d) = VStr s.
Proof.
  intros Hn. rewrite enrich_get_text by done. unfold get.
  destruct (fetch_row header row !! name) as [v|] eqn:Hv; [|by eexists].
  by apply fetch_row_text in Hv.
Qed.

Lemma pipeline_ret (values : list (list string)) :
  pipeline values
  = Ret (Dashboard (groups_by_first_encounter
                      (enrich <$> fetch_sheet_values values))).
Proof.
  unfold pipeline. rewrite compute_numeric_fields_ret. cbn.
  apply build_dashboard_json_ret.
Qed.

Lemma record_of_group rows g r :
  g ∈ groups_by_first_encounter rows → r ∈ records g → r ∈ rows.
Proof.
  intros (k & -> & _)%elem_of_groups Hr. cbn [records group_of] in Hr.
  by apply list_elem_of_filter in Hr as [_ Hr].
Qed.

Lemma not_derived_name name :
  name = "line_id"%string ∨ name = "line_name"%string
  ∨ name = "location"%string →
  name ∉ derived_fields.
Proof.
  unfold derived_fields. rewrite !not_elem_of_cons.
  intros [->|[->| ->]]; repeat split; try done; apply not_elem_of_nil.
Qed.

Lemma size_names (names : list string) :
  size (list_to_set names : gset string) ≤ length names.
Proof.
  induction names as [|x names IH]; cbn [list_to_set length].
  - rewrite size_empty. lia.
  - rewrite size_union_alt, size_singleton.
    assert (size (list_to_set names ∖ {[x]} : gset string)
            ≤ size (list_to_set names : gset string)); [|lia].
    apply subseteq_size. by intros y [Hy _]%elem_of_difference.
Qed.

End PipelineMore.

(** X10.  The pipeline never raises, and it loses no data row and adds
    none: the enriched rows, whose number [main] reports, and the records
    of the groups taken together are as many as the rows of the grid
    after the header. *)
Theorem pipeline_keeps_every_data_row (values : list (list string)) :
  ∃ rows d,
    compute_numeric_fields (fetch_sheet_values values) = Ret rows
    ∧ pipeline values = Ret d
    ∧ length rows = (length values - 1)%nat
    ∧ sum_list ((λ g, length (records g)) <$> lines d)
      = (length values - 1)%nat.
Proof.
  exists (enrich <$> fetch_sheet_values values),
         (Dashboard (groups_by_first_encounter
                       (enrich <$> fetch_sheet_values values))).
  assert (length (enrich <$> fetch_sheet_values values)
          = (length values - 1)%nat) as Hlen.
  { rewrite length_fmap. destruct values as [|header data]; [done|].
    cbn [fetch_sheet_values length]. rewrite length_fmap. lia. }
  split; [apply compute_numeric_fields_ret|].
  split; [apply pipeline_ret|]. split; [exact Hlen|]. cbn [lines].
  rewrite <- Hlen.
  rewrite <- (Permutation_length (groups_records_partition _)).
  by rewrite <- sum_lengths_concat, <- list_fmap_compose.
Qed.

(** X11.  Every record of the output has the names of the header and the
    four derived names as its keys, and no other. *)
Theorem pipeline_records_have_header_and_derived_keys
    (header : list string) (data : list (list string)) :
  ∃ d,
    pipeline (header :: data) = Ret d
    ∧ ∀ g r, g ∈ lines d → r ∈ records g →
        dom r = list_to_set header ∪ list_to_set derived_fields.
Proof.
  eexists. split; [apply pipeline_ret|]. cbn [lines fetch_sheet_values].
  intros g r Hg Hr.
  apply (record_of_group _ g r Hg) in Hr.
  apply list_elem_of_fmap in Hr as (r1 & -> & Hr).
  apply list_elem_of_fmap in Hr as (row & -> & _).
  by rewrite enrich_dom, fetch_row_dom.
Qed.

(** X12.  In the output of the pipeline the [line_id], the [line_name]
    and the [location] of every group are text: the text of a cell, or the
    default. *)
Theorem pipeline_group_fields_are_text (values : list (list string)) :
  ∃ d,
    pipeline values = Ret d
    ∧ ∀ g, g ∈ lines d →
        ∃ id name place,
          line_id g = VStr id ∧ line_name g = VStr name
          ∧ location g = VStr place.
Proof.
  eexists. split; [apply pipeline_ret|]. cbn [lines].
  destruct values as [|header data];
    [by intros g ?%not_elem_of_nil|]. cbn [fetch_sheet_values].
  intros g (k & -> & Hk)%elem_of_groups.
  destruct (filter_key_nonempty _ k Hk) as (r0 & rest & Hf).
  assert (r0 ∈ filter (λ r, key_of r = k)
                 (enrich <$> (fetch_row header <$> data))) as Hr0
    by (rewrite Hf; apply list_elem_of_here).
  apply list_elem_of_filter in Hr0 as [Hkey Hr0].
  apply list_elem_of_fmap in Hr0 as (r1 & -> & Hr0).
  apply list_elem_of_fmap in Hr0 as (row & -> & _).
  unfold group_of. cbn [line_id line_name location]. rewrite Hf, <- Hkey.
  change (key_of ?r) with (get r "line_id" (VStr "UNKNOWN")).
  destruct (get_text_of_record header row "line_id" "UNKNOWN") as [id Hid];
    [apply not_derived_name; auto|].
  destruct (get_text_of_record header row "line_name" "") as [name Hname];
    [apply not_derived_name; auto|].
  destruct (get_text_of_record header row "location" "") as [place Hplace];
    [apply not_derived_name; auto|].
  exists id, name, place. by rewrite Hid, Hname, Hplace.
Qed.

(** X13.  When several columns of the header have the same name, the
    record holds under that name the cell of the last of them, the empty
    text when the row does not reach it, whatever stands in the other
    columns. *)
Theorem duplicate_header_name_takes_last_column
    (header row : list string) (name : string) (j : nat) :
  header !! j = Some name →
  (∀ j' : nat, (j < j')%nat → header !! j' ≠ Some name) →
  ∀ (i : nat) (cell : string), i ≠ j →
    fetch_row header (<[i := cell]> row) !! name
    = Some (VStr (default ""%string (row !! j))).
Proof.
  intros Hj Hlast i cell Hi. apply fetch_row_lookup.
  exists j. split; [done|]. split; [|done].
  by rewrite list_lookup_insert_ne.
Qed.

Lemma duplicate_header_name_takes_last_column_witness :
  let header := ["gold_grams"; "line_id"; "gold_grams"]%string in
  let row := ["5"; "L1"; "7"]%string in
  header !! 2%nat = Some "gold_grams"%string
  ∧ (∀ j' : nat, (2 < j')%nat → header !! j' ≠ Some "gold_grams"%string)
  ∧ ∀ (i : nat) (cell : string), i ≠ 2%nat →
      fetch_row header (<[i := cell]> row) !! "gold_grams"%string
      = Some (VStr (default ""%string (row !! 2%nat))).
Proof.
  intros header row.
  assert (header !! 2%nat = Some "gold_grams"%string) as Hj by reflexivity.
  assert (∀ j' : nat, (2 < j')%nat → header !! j' ≠ Some "gold_grams"%string)
    as Hlast.
  { intros j' Hlt. rewrite lookup_ge_None_2; [done|]. simpl. lia. }
  split; [exact Hj|]. split; [exact Hlast|].
  exact (duplicate_header_name_takes_last_column header row _ 2 Hj Hlast).
Defined.

(** X14.  When the names of the header are distinct, reading the record
    name by name along the header gives back the cells of the row, padded
    with empty texts or cut to the length of the header. *)
Theorem record_reads_back_as_the_row (header row : list string) :
  NoDup header →
  (λ name, fetch_row header row !! name) <$> header
  = (λ cell, Some (VStr cell)) <$> take (length header) (pad header row).
Proof.
  intros Hnd. apply list_eq. intros i.
  rewrite !list_lookup_fmap.
  destruct (header !! i) as [name|] eqn:Hi.
  - pose proof (lookup_lt_Some _ _ _ Hi) as Hlt.
    rewrite lookup_take_lt, lookup_pad by done. simpl. f_equal.
    apply fetch_row_lookup. exists i. split; [done|]. split; [done|].
    intros j' Hj' Hname.
    pose proof (NoDup_lookup _ _ _ _ Hnd Hi Hname). lia.
  - apply lookup_ge_None_1 in Hi.
    by rewrite lookup_take_ge by done.
Qed.

Lemma record_reads_back_as_the_row_witness :
  let header := ["line_id"; "gold_grams"; "gold_price_usd_per_g"]%string in
  let row := ["L1"; "5"]%string in
  NoDup header
  ∧ (λ name, fetch_row header row !! name) <$> header
    = (λ cell, Some (VStr cell)) <$> take (length header) (pad header row).
Proof.
  intros header row.
  assert (NoDup header) as Hnd
    by (apply (bool_decide_unpack _); vm_compute; exact I).
  split; [exact Hnd|]. exact (record_reads_back_as_the_row header row Hnd).
Defined.

(** X15.  The materializer gives one record for each row after the
    header, none for an empty grid; every value of a record is text, and
    a record has no more fields than the header has names. *)
Theorem fetch_sheet_values_records (values : list (list string)) :
  length (fetch_sheet_values values) = (length values - 1)%nat
  ∧ ∀ r, r ∈ fetch_sheet_values values →
      (∀ name v, r !! name = Some v → ∃ s, v = VStr s)
      ∧ (size r ≤ length (default [] (head values)))%nat.
Proof.
  destruct values as [|header data]; cbn [fetch_sheet_values].
  - split; [done|]. by intros r ?%not_elem_of_nil.
  - split; [cbn [length]; rewrite length_fmap; lia|].
    intros r (row & -> & _)%list_elem_of_fmap. split.
    + intros name v. apply fetch_row_text.
    + cbn [head default]. rewrite <- size_dom, fetch_row_dom.
      apply size_names.
Qed.

(** ** The script *)

Section ScriptMore.

Import Script.
Implicit Types (sv : services) (environ : gmap string string).

Lemma not_false (x : option string) :
  not_ x = false → ∃ s, x = Some s ∧ s ≠ ""%string.
Proof.
  destruct x as [s|]; [|done]. simpl. intros H%bool_decide_eq_false.
  by exists s.
Qed.

Lemma pipeline_rows_length (values : list (list string)) :
  length (enrich <$> fetch_sheet_values values)
  = (length values - 1)%nat.
Proof.
  rewrite length_fmap. destruct values as [|header data]; [done|].
  cbn [fetch_sheet_values length]. rewrite length_fmap. lia.
Qed.

(** What comes before the file, once the settings are there and the
    download has succeeded. *)
Lemma main_before_the_file_done sv environ sheet_id creds result :
  environ !! "SHEET_ID"%string = Some sheet_id → sheet_id ≠ ""%string →
  load_service_account_credentials sv environ = Done creds →
  values_get sv creds sheet_id "Lines!A1:Z999" = Done result →
  main_before_the_file sv environ
  = Done (enrich <$> fetch_sheet_values (default [] result),
          Dashboard (groups_by_first_encounter
                       (enrich <$> fetch_sheet_values
                                     (default [] result)))).
Proof.
  intros Hid Hne Hcreds Hget. unfold main_before_the_file.
  rewrite Hid. cbn [not_ default]. rewrite bool_decide_eq_false_2 by done.
  unfold fetch_sheet_values_from. rewrite Hcreds. cbn. rewrite Hget. cbn.
  rewrite compute_numeric_fields_ret. cbn.
  by rewrite build_dashboard_json_ret.
Qed.

End ScriptMore.

(** X16.  [main] looks at the settings before anything else, [SHEET_ID]
    first: when [SHEET_ID] or [GOOGLE_SERVICE_ACCOUNT_JSON] is unset or
    empty, [main] raises a [RuntimeError] that names the first of the two
    that is missing, and it opens no file and prints nothing, whatever
    the services are. *)
Theorem main_checks_the_settings_first
    (sv : Script.services) (environ : gmap string string) :
  Script.not_ (environ !! "SHEET_ID"%string) = true
  ∨ Script.not_ (environ !! "GOOGLE_SERVICE_ACCOUNT_JSON"%string) = true →
  Script.main sv environ
  = ([], Script.Failed
           (Script.RuntimeError
              (if Script.not_ (environ !! "SHEET_ID"%string)
               then "Missing env var SHEET_ID"
               else "Missing env var GOOGLE_SERVICE_ACCOUNT_JSON"))).
Proof.
  intros H. unfold Script.main, Script.main_before_the_file.
  destruct (Script.not_ (environ !! "SHEET_ID"%string)) eqn:Hid; [done|].
  destruct H as [H|H]; [done|].
  unfold Script.fetch_sheet_values_from,
    Script.load_service_account_credentials.
  by rewrite H.
Qed.

Lemma main_checks_the_settings_first_witness :
  let sv :=
    Script.Services unit unit
      (λ _, Script.Done ()) (λ _, Script.Done ()) (λ _ _, Script.Done ())
      (λ _ _ _, Script.Done None) (Script.Done "/repo/data.json"%string)
      (λ _, Script.Done ()) (λ _, Script.Done ())
      (λ _, Script.Done ()) (λ _, Script.Done ()) in
  let environ : gmap string string :=
    {[ "SHEET_ID"%string := "sheet-1"%string;
       "GOOGLE_SERVICE_ACCOUNT_JSON"%string := ""%string ]} in
  (Script.not_ (environ !! "SHEET_ID"%string) = true
   ∨ Script.not_ (environ !! "GOOGLE_SERVICE_ACCOUNT_JSON"%string) = true)
  ∧ Script.main sv environ
    = ([], Script.Failed
             (Script.RuntimeError
                (if Script.not_ (environ !! "SHEET_ID"%string)
                 then "Missing env var SHEET_ID"
                 else "Missing env var GOOGLE_SERVICE_ACCOUNT_JSON"))).
Proof.
  intros sv environ.
  assert (Script.not_ (environ !! "SHEET_ID"%string) = true
          ∨ Script.not_ (environ !! "GOOGLE_SERVICE_ACCOUNT_JSON"%string) = true)
    as H by (right; vm_compute; reflexivity).
  split; [exact H|]. exact (main_checks_the_settings_first sv environ H).
Defined.

(** X17.  [main] opens the output file last.  Either it fails before,
    with no event at all, or the settings were there, the credentials were
    loaded, the range [Lines!A1:Z999] of the sheet was downloaded, the
    path was found and the file was opened.  From there on the run ends in
    one of five ways: [json.dump] fails and the closing fails too;
    [json.dump] fails and the file is closed; the dashboard is dumped and
    the closing fails; the file is dumped and closed and [print] fails;
    or all is done.  What is dumped is always the dashboard of the
    pipeline on the downloaded grid, and the line printed reports as many
    rows as the grid has after its header. *)
Theorem main_opens_the_file_last
    (sv : Script.services) (environ : gmap string string) :
  (∃ e, Script.main sv environ = ([], Script.Failed e))
  ∨ ∃ sheet_id creds result d path,
      environ !! "SHEET_ID"%string = Some sheet_id
      ∧ sheet_id ≠ ""%string
      ∧ Script.load_service_account_credentials sv environ = Script.Done creds
      ∧ Script.values_get sv creds sheet_id "Lines!A1:Z999" = Script.Done result
      ∧ pipeline (default [] result) = Ret d
      ∧ Script.output_path sv = Script.Done path
      ∧ Script.open_for_writing sv path = Script.Done ()
      ∧ ((∃ e e', Script.json_dump sv d = Script.Failed e
                  ∧ Script.close_file sv path = Script.Failed e'
                  ∧ Script.main sv environ
                    = ([Script.Opened path], Script.Failed e'))
         ∨ (∃ e, Script.json_dump sv d = Script.Failed e
                 ∧ Script.close_file sv path = Script.Done ()
                 ∧ Script.main sv environ
                   = ([Script.Opened path; Script.Closed path],
                      Script.Failed e))
         ∨ (∃ e, Script.json_dump sv d = Script.Done ()
                 ∧ Script.close_file sv path = Script.Failed e
                 ∧ Script.main sv environ
                   = ([Script.Opened path; Script.Dumped path d],
                      Script.Failed e))
         ∨ (∃ e line,
              line = ("Written "
                      +:+ Script.str_of_nat (length (default [] result) - 1)
                      +:+ " rows into " +:+ path)
              ∧ Script.json_dump sv d = Script.Done ()
              ∧ Script.close_file sv path = Script.Done ()
              ∧ Script.print_line sv line = Script.Failed e
              ∧ Script.main sv environ
                = ([Script.Opened path; Script.Dumped path d;
                    Script.Closed path],
                   Script.Failed e))
         ∨ (∃ line,
              line = ("Written "
                      +:+ Script.str_of_nat (length (default [] result) - 1)
                      +:+ " rows into " +:+ path)
              ∧ Script.json_dump sv d = Script.Done ()
              ∧ Script.close_file sv path = Script.Done ()
              ∧ Script.print_line sv line = Script.Done ()
              ∧ Script.main sv environ
                = ([Script.Opened path; Script.Dumped path d;
                    Script.Closed path; Script.Printed line],
                   Script.Done ()))).
Proof.
  destruct (Script.not_ (environ !! "SHEET_ID"%string)) eqn:Hid.
  { left. eexists. unfold Script.main, Script.main_before_the_file.
    by rewrite Hid. }
  apply not_false in Hid as (sheet_id & Hid & Hne).
  destruct (Script.load_service_account_credentials sv environ)
    as [creds|e] eqn:Hcreds.
  2: { left. exists e. unfold Script.main, Script.main_before_the_file.
       rewrite Hid. cbn [Script.not_]. rewrite bool_decide_eq_false_2 by done.
       unfold Script.fetch_sheet_values_from. by rewrite Hcreds. }
  destruct (Script.values_get sv creds sheet_id "Lines!A1:Z999")
    as [result|e] eqn:Hget.
  2: { left. exists e. unfold Script.main, Script.main_before_the_file.
       rewrite Hid. cbn [Script.not_ default].
       rewrite bool_decide_eq_false_2 by done.
       unfold Script.fetch_sheet_values_from. rewrite Hcreds. cbn.
       by rewrite Hget. }
  pose proof (main_before_the_file_done sv environ sheet_id creds result
                Hid Hne Hcreds Hget) as Hbefore.
  unfold Script.main, Script.report.
  rewrite Hbefore, pipeline_rows_length.
  destruct (Script.output_path sv) as [path|e] eqn:Hpath;
    [|left; by exists e].
  destruct (Script.open_for_writing sv path) as [[]|e] eqn:Hopen;
    [|left; by exists e].
  right. eexists sheet_id, creds, result, _, path.
  split; [done|]. split; [done|]. split; [done|]. split; [done|].
  split; [apply pipeline_ret|]. split; [done|]. split; [done|].
  destruct (Script.json_dump sv _) as [[]|e] eqn:Hdump;
    destruct (Script.close_file sv path) as [[]|e'] eqn:Hclose.
  - destruct (Script.print_line sv _) as [[]|e] eqn:Hprint.
    + do 4 right. eexists. by repeat (split; [done|]).
    + do 3 right. left. eexists e, _. by repeat (split; [done|]).
  - do 2 right. left. exists e'. by repeat (split; [done|]).
  - right. left. exists e. by repeat (split; [done|]).
  - left. exists e, e'. by repeat (split; [done|]).
Qed.

(** X18.  When the response has no ["values"], or a grid that is empty or
    has its header alone, and the file can be opened, written and closed
    and the line printed, [main] writes a dashboard without any group over
    the output file and reports 0 rows. *)
Theorem empty_sheet_writes_an_empty_dashboard
    (sv : Script.services) (environ : gmap string string)
    (sheet_id : string) (creds : Script.credentials sv)
    (result : option (list (list string))) (path : string) :
  environ !! "SHEET_ID"%string = Some sheet_id →
  sheet_id ≠ ""%string →
  Script.load_service_account_credentials sv environ = Script.Done creds →
  Script.values_get sv creds sheet_id "Lines!A1:Z999" = Script.Done result →
  (length (default [] result) ≤ 1)%nat →
  Script.output_path sv = Script.Done path →
  Script.open_for_writing sv path = Script.Done () →
  Script.json_dump sv (Dashboard []) = Script.Done () →
  Script.close_file sv path = Script.Done () →
  Script.print_line sv ("Written 0 rows into " +:+ path) = Script.Done () →
  Script.main sv environ
  = ([Script.Opened path;
      Script.Dumped path (Dashboard []);
      Script.Closed path;
      Script.Printed ("Written 0 rows into " +:+ path)],
     Script.Done ()).
Proof.
  intros Hid Hne Hcreds Hget Hlen Hpath Hopen Hdump Hclose Hprint.
  unfold Script.main, Script.report.
  rewrite (main_before_the_file_done sv environ sheet_id creds result)
    by done.
  assert (fetch_sheet_values (default [] result) = []) as ->.
  { destruct (default [] result) as [|header [|row data]]; try done.
    simpl in Hlen. lia. }
  cbn [fmap list_fmap length]. rewrite Hpath, Hopen.
  change (groups_by_first_encounter []) with (@nil group).
  rewrite Hdump, Hclose.
  change ("Written " +:+ Script.str_of_nat 0 +:+ " rows into " +:+ path)
    with ("Written 0 rows into " +:+ path).
  by rewrite Hprint.
Qed.

Lemma empty_sheet_writes_an_empty_dashboard_witness :
  let sv :=
    Script.Services unit unit
      (λ _, Script.Failed Script.JSONDecodeError) (λ _, Script.Done ())
      (λ _ _, Script.Done ())
      (λ _ _ _, Script.Done (Some [["line_id"; "gold_grams"]%string]))
      (Script.Done "/repo/data.json"%string)
      (λ _, Script.Done ()) (λ _, Script.Done ())
      (λ _, Script.Done ()) (λ _, Script.Done ()) in
  let environ : gmap string string :=
    {[ "SHEET_ID"%string := "sheet-1"%string;
       "GOOGLE_SERVICE_ACCOUNT_JSON"%string := "{'type': 'service_account'}"%string ]} in
  let result := Some [["line_id"; "gold_grams"]%string] in
  let path := "/repo/data.json"%string in
  environ !! "SHEET_ID"%string = Some "sheet-1"%string
  ∧ "sheet-1"%string ≠ ""%string
  ∧ Script.load_service_account_credentials sv environ = Script.Done ()
  ∧ Script.values_get sv () "sheet-1" "Lines!A1:Z999" = Script.Done result
  ∧ (length (default [] result) ≤ 1)%nat
  ∧ Script.output_path sv = Script.Done path
  ∧ Script.open_for_writing sv path = Script.Done ()
  ∧ Script.json_dump sv (Dashboard []) = Script.Done ()
  ∧ Script.close_file sv path = Script.Done ()
  ∧ Script.print_line sv ("Written 0 rows into " +:+ path) = Script.Done ()
  ∧ Script.main sv environ
    = ([Script.Opened path;
        Script.Dumped path (Dashboard []);
        Script.Closed path;
        Script.Printed ("Written 0 rows into " +:+ path)],
       Script.Done ()).
Proof.
  intros sv environ result path.
  assert (environ !! "SHEET_ID"%string = Some "sheet-1"%string) as Hid
    by (vm_compute; reflexivity).
  assert ("sheet-1"%string ≠ ""%string) as Hne by discriminate.
  assert (Script.load_service_account_credentials sv environ = Script.Done ())
    as Hcreds by (vm_compute; reflexivity).
  assert (Script.values_get sv () "sheet-1" "Lines!A1:Z999"
          = Script.Done result) as Hget by reflexivity.
  assert (length (default [] result) ≤ 1)%nat as Hlen by (simpl; lia).
  assert (Script.output_path sv = Script.Done path) as Hpath by reflexivity.
  assert (Script.open_for_writing sv path = Script.Done ()) as Hopen
    by reflexivity.
  assert (Script.json_dump sv (Dashboard []) = Script.Done ()) as Hdump
    by reflexivity.
  assert (Script.close_file sv path = Script.Done ()) as Hclose
    by reflexivity.
  assert (Script.print_line sv ("Written 0 rows into " +:+ path)
          = Script.Done ()) as Hprint by reflexivity.
  split; [exact Hid|]. split; [exact Hne|]. split; [exact Hcreds|].
  split; [exact Hget|]. split; [exact Hlen|]. split; [exact Hpath|].
  split; [exact Hopen|]. split; [exact Hdump|]. split; [exact Hclose|].
  split; [exact Hprint|].
  exact (empty_sheet_writes_an_empty_dashboard sv environ "sheet-1" () result
           path Hid Hne Hcreds Hget Hlen Hpath Hopen Hdump Hclose Hprint).
Defined.

(** X19.  Every record of the output holds a number under each of the
    four derived names, also when the sheet has a column of that name, and
    the text of a cell under every other name. *)
Theorem pipeline_records_hold_numbers_and_text
    (header : list string) (data : list (list string)) :
  ∃ d,
    pipeline (header :: data) = Ret d
    ∧ ∀ g r, g ∈ lines d → r ∈ records g →
        (∀ k, k ∈ derived_fields → ∃ x, r !! k = Some (VFloat x))
        ∧ (∀ k v, k ∉ derived_fields → r !! k = Some v → ∃ s, v = VStr s).
Proof.
  eexists. split; [apply pipeline_ret|]. cbn [lines fetch_sheet_values].
  intros g r Hg Hr.
  apply (record_of_group _ g r Hg) in Hr.
  apply list_elem_of_fmap in Hr as (r1 & -> & Hr).
  apply list_elem_of_fmap in Hr as (row & -> & _). split.
  - intros k. unfold derived_fields. rewrite !elem_of_cons, elem_of_nil.
    unfold enrich.
    intros [->|[->|[->|[->|[]]]]]; eexists;
      rewrite ?lookup_insert_ne by done; apply lookup_insert_eq.
  - intros k v Hk. rewrite enrich_lookup_other by done.
    apply fetch_row_text.
Qed.
